(** * The read-through cache proxy of project-framework (package cacheproxy)

    A shallow embedding of [StringView] (string_view.go), of the [Cache]
    interface with its [RedisCache] adaptor (cache.go) and of [CacheProxy]
    (cache_proxy.go), followed by the properties the design document states
    about them.

    Conventions of the embedding.
    - [time.Time] is an instant, a number of nanoseconds counted from Go's zero
      time (January 1, year 1 UTC), so [IsZero] is a comparison with 0;
      [time.Duration] is a number of nanoseconds.  Both are [Z].
    - A Go result tuple [(a, b, err)] is a Rocq triple whose [error] is an
      [option]: [None] is [nil].
    - A run-time panic is the [Panic] outcome of the [Res] type; a function
      that can panic returns a [Res].
    - go-redis, sonic, singleflight and the origin getter are collaborators
      outside the repository.  The redis client and the codec are taken as
      records of functions, the getter as a function on the origin's state;
      module [Mem] gives in-memory instances on which everything runs.
    - The proxy runs in a [World] holding the wall clock, the state behind the
      store, the state of the origin, the package logger of logger/logger.go
      (nil until [InitLogger]; otherwise the messages given to it), the
      goroutines started with [go] that have not run yet, and a trace of the
      calls made to the collaborators. *)

From Stdlib Require Import ZArith List Bool Ascii Lia.
From stdpp Require Import base gmap strings pretty.

Local Open Scope string_scope.
Local Open Scope Z_scope.

(** ** Values shared by the three source files *)

Definition Time := Z.
Definition Duration := Z.

(** [t.IsZero()], [t.Add(d)] and [t.Before(u)] of package time. *)
Definition Time_IsZero (t : Time) : bool := t =? 0.
Definition Time_Add (t : Time) (d : Duration) : Time := t + d.
Definition Time_Before (t u : Time) : bool := t <? u.

(** [context.Context]: the only distinction the proxy makes is between the
    context handed in by the caller and [context.Background()]. *)
Inductive context : Type :=
| Background
| Caller (name : string).

(** The [error] values the package can see: its own sentinels
    ([ErrInvalidKey], [ErrMismatchedPair], [fastRequeryErr]), go-redis's
    [redis.Nil], and anything else, built by [errors.New]. *)
Inductive error : Type :=
| ErrInvalidKey
| ErrMismatchedPair
| fastRequeryErr
| redis_Nil
| errors_New (msg : string).

#[global] Instance error_eq_dec : EqDecision error.
Proof. solve_decision. Defined.

#[global] Instance context_eq_dec : EqDecision context.
Proof. solve_decision. Defined.

(** [err.Error()] *)
Definition Error (e : error) : string :=
  match e with
  | ErrInvalidKey => "empty key"
  | ErrMismatchedPair => " keys and values mismatch"
  | fastRequeryErr => "need fast requery"
  | redis_Nil => "redis: nil"
  | errors_New msg => msg
  end.

(** [errors.Is(err, target)] on sentinels that wrap nothing. *)
Definition errors_Is (e target : error) : bool := bool_decide (e = target).

(** Outcome of a call that may panic. *)
Inductive Res (A : Type) : Type :=
| Ok (a : A)
| Panic (v : string).
Arguments Ok {A} a.
Arguments Panic {A} v.

(** ** string_view.go *)

Record StringView : Type := mkStringView {
  Ctime : Time;
  NeedFastRequery : bool;
  IsNil : bool;
  Data : string
}.

#[global] Instance StringView_eq_dec : EqDecision StringView.
Proof. solve_decision. Defined.

(** [StringView{}] *)
Definition StringView_zero : StringView := mkStringView 0 false false "".

(** [StringView{IsNil: true}] *)
Definition StringView_nil : StringView := mkStringView 0 false true "".

(** [IsExpire]; the value of [time.Now()] is the last argument. *)
Definition IsExpire (v : StringView) (normalOffset fastOffset : Duration)
    (now : Time) : bool :=
  if Time_IsZero (Ctime v) then false
  else
    let offset := if NeedFastRequery v then fastOffset else normalOffset in
    if Time_Before (Time_Add (Ctime v) offset) now then true else false.

Definition Len (v : StringView) : Z := Z.of_nat (String.length (Data v)).
Definition String_ (v : StringView) : string := Data v.
Definition CheckNil (v : StringView) : bool := IsNil v.
Definition GetTime (v : StringView) : Time := Ctime v.

(** ** cache.go *)

(** The [Cache] interface, over the state [S] of whatever implements it.
    [MGet] and [MSet] are stubs in the source and are left out. *)
Record Cache (S : Type) : Type := mkCache {
  Cache_Get : context -> string -> S ->
              Res (StringView * bool * option error) * S;
  Cache_Set : context -> string -> StringView -> Duration -> Duration -> S ->
              Res (option error) * S;
  Cache_Remove : context -> string -> S -> Res (option error) * S
}.
Arguments Cache_Get {S} _ _ _ _.
Arguments Cache_Set {S} _ _ _ _ _ _ _.
Arguments Cache_Remove {S} _ _ _ _.

(** What the adaptor uses of [*redis.Client], over the server state [R]:
    [Get(ctx, key).Result()], [Set(ctx, key, value, expiration).Result()] and
    [Del(ctx, key).Result()]. *)
Record RedisClient (R : Type) : Type := mkRedisClient {
  rdb_Get : context -> string -> R -> (string * option error) * R;
  rdb_Set : context -> string -> string -> Duration -> R ->
            (string * option error) * R;
  rdb_Del : context -> string -> R -> (Z * option error) * R
}.
Arguments rdb_Get {R} _ _ _ _.
Arguments rdb_Set {R} _ _ _ _ _ _.
Arguments rdb_Del {R} _ _ _ _.

(** What the adaptor uses of sonic.  [UnmarshalString] gives the decoded
    value of a [StringView{}] passed by reference, and the error. *)
Record Sonic : Type := mkSonic {
  MarshalString : StringView -> string * option error;
  UnmarshalString : string -> StringView * option error
}.

Module RedisCache.
Section Adaptor.
Context {R : Type}.
Variable sonic : Sonic.

(** [type RedisCache struct { rdb *redis.Client }]; [None] is a nil client. *)
Record t : Type := mk { rdb : option (RedisClient R) }.

Definition NewRedisAdaptor (client : option (RedisClient R)) : t := mk client.

Definition Get (c : t) (ctx : context) (key : string) (r : R)
    : Res (StringView * bool * option error) * R :=
  match rdb c with
  | None => (Panic "empty redis client", r)
  | Some cl =>
      let res := StringView_zero in
      if Z.of_nat (String.length key) <? 0 then
        (Ok (res, false, Some ErrInvalidKey), r)
      else
        let '((result, err), r') := rdb_Get cl ctx key r in
        match err with
        | Some e =>
            if errors_Is e redis_Nil then (Ok (StringView_nil, false, None), r')
            else (Ok (res, false, Some e), r')
        | None =>
            let '(res', err') := UnmarshalString sonic result in
            match err' with
            | Some e => (Ok (StringView_nil, false, Some e), r')
            | None => (Ok (res', true, None), r')
            end
        end
  end.

Definition Set_ (c : t) (ctx : context) (key : string) (value : StringView)
    (expiredTime emptyExpiredTime : Duration) (r : R)
    : Res (option error) * R :=
  match rdb c with
  | None => (Panic "empty redis client", r)
  | Some cl =>
      if Z.of_nat (String.length key) <=? 0 then (Ok (Some ErrInvalidKey), r)
      else
        let '(valStr, err) := MarshalString sonic value in
        match err with
        | Some e => (Ok (Some e), r)
        | None =>
            let expired :=
              if Z.of_nat (String.length (Data value)) =? 0
              then emptyExpiredTime else expiredTime in
            let '((_, err'), r') := rdb_Set cl ctx key valStr expired r in
            (Ok err', r')
        end
  end.

Definition Remove (c : t) (ctx : context) (key : string) (r : R)
    : Res (option error) * R :=
  match rdb c with
  | None => (Panic "empty redis client", r)
  | Some cl =>
      if Z.of_nat (String.length key) <=? 0 then (Ok (Some ErrInvalidKey), r)
      else
        let '((_, err), r') := rdb_Del cl ctx key r in
        (Ok err, r')
  end.

(** [*RedisCache] implements [Cache]. *)
Definition as_Cache (c : t) : Cache R :=
  mkCache R (Get c) (Set_ c) (Remove c).
End Adaptor.
End RedisCache.

(** ** cache_proxy.go *)

(** [SingleGetter]: the origin, a function on the origin's state [G]. *)
Definition SingleGetter (G : Type) : Type :=
  context -> string -> G -> (string * bool * option error) * G.

Record CacheContext : Type := mkCacheContext {
  NeedForceRefresh : bool;
  NeedCacheRefresh : bool;
  RefreshOffset : Duration;
  FastRefreshOffset : Duration;
  ExpiredTime : Duration;
  EmptyExpiredTime : Duration
}.

Definition defaultExpiredTime : Duration := 24 * 3600 * 1000000000.
Definition defaultRefreshTime : Duration := 10 * 60 * 1000000000.

(** A call the proxy makes to one of its collaborators. *)
Inductive Call : Type :=
| CallCacheGet (ctx : context) (key : string)
| CallCacheSet (ctx : context) (key : string) (value : StringView)
    (expiredTime emptyExpiredTime : Duration)
| CallCacheRemove (ctx : context) (key : string)
| CallOriginGet (ctx : context) (key : string).

(** A call and the reading of the clock when it was made. *)
Record Event : Type := mkEvent { ev_at : Time; ev_call : Call }.

(** An [interface{}] value as [getResource] sees it: nil or a string. *)
Inductive iface : Type :=
| iface_nil
| iface_string (s : string).

Module CacheProxy.
Section Proxy.
Context {S G : Type}.

(** The two function literals started with [go] in [GetHit], with the
    variables they capture: the write-back after a miss and the refresh of
    a stale value. *)
Inductive Task : Type :=
| TaskWriteBack (c : CacheContext) (key data : string) (needFastRequery : bool)
| TaskRefresh (c : CacheContext) (key : string) (getter : SingleGetter G).

Record World : Type := mkWorld {
  w_now : Time;
  w_store : S;
  w_origin : G;
  w_log : option (list string);
  w_tasks : list Task;
  w_trace : list Event
}.

(** Computations of the proxy: a state passed along, and a result or a
    panic.  A panic keeps the state it happened in. *)
Definition M (A : Type) : Type := World -> Res A * World.

Definition ret {A} (a : A) : M A := fun w => (Ok a, w).

Definition bind {A B} (m : M A) (k : A -> M B) : M B :=
  fun w =>
    match m w with
    | (Ok a, w') => k a w'
    | (Panic v, w') => (Panic v, w')
    end.

Definition panic {A} (v : string) : M A := fun w => (Panic v, w).

Notation "'let*' x ':=' m 'in' k" := (bind m (fun x => k))
  (at level 10, x name, m at level 100, k at level 200).
Notation "'let*' ' pat ':=' m 'in' k" := (bind m (fun x => match x with pat => k end))
  (at level 10, pat pattern, m at level 100, k at level 200).
Notation "m ';;;' k" := (bind m (fun _ => k))
  (at level 100, k at level 200, right associativity).

(** [time.Now()] *)
Definition time_Now : M Time := fun w => (Ok (w_now w), w).

(** [logger.Error(msg)], that is [log.Error(args)] on the package variable
    [log] of logger/logger.go: a nil [*zap.SugaredLogger] until [InitLogger]
    has run, on which the call panics; [Some lines] is a logger made by
    [InitLogger], with the messages it was given. *)
Definition logger_Error (msg : string) : M unit :=
  fun w =>
    match w_log w with
    | None =>
        (Panic "runtime error: invalid memory address or nil pointer dereference",
         w)
    | Some lines =>
        (Ok tt, mkWorld (w_now w) (w_store w) (w_origin w)
                  (Some (lines ++ [msg])%list) (w_tasks w) (w_trace w))
    end.

(** [go func() { ... }()]: the goroutine is started and runs later. *)
Definition go (t : Task) : M unit :=
  fun w => (Ok tt, mkWorld (w_now w) (w_store w) (w_origin w)
                      (w_log w) (w_tasks w ++ [t]) (w_trace w)).

Definition record (c : Call) : M unit :=
  fun w => (Ok tt, mkWorld (w_now w) (w_store w) (w_origin w)
                      (w_log w) (w_tasks w) (w_trace w ++ [mkEvent (w_now w) c])).

Definition on_store {A} (f : S -> Res A * S) : M A :=
  fun w =>
    let '(r, s') := f (w_store w) in
    (r, mkWorld (w_now w) s' (w_origin w) (w_log w) (w_tasks w) (w_trace w)).

Definition on_origin {A} (f : G -> A * G) : M A :=
  fun w =>
    let '(a, g') := f (w_origin w) in
    (Ok a, mkWorld (w_now w) (w_store w) g' (w_log w) (w_tasks w) (w_trace w)).

(** [singleflight.Group]: the calls in flight.  One caller at a time runs
    in this model, so none is in flight between two calls. *)
Inductive Group : Type := mkGroup.

(** [type CacheProxy struct { cache Cache; getGroup *singleflight.Group }] *)
Record t : Type := mk { cache : Cache S; getGroup : Group }.

(** [p.cache.Get], [p.cache.Set], [p.cache.Remove] and [getter.Get], each
    entered in the trace. *)
Definition cache_Get (p : t) (ctx : context) (key : string)
    : M (StringView * bool * option error) :=
  record (CallCacheGet ctx key);;;
  on_store (Cache_Get (cache p) ctx key).

Definition cache_Set (p : t) (ctx : context) (key : string) (value : StringView)
    (expiredTime emptyExpiredTime : Duration) : M (option error) :=
  record (CallCacheSet ctx key value expiredTime emptyExpiredTime);;;
  on_store (Cache_Set (cache p) ctx key value expiredTime emptyExpiredTime).

Definition cache_Remove (p : t) (ctx : context) (key : string)
    : M (option error) :=
  record (CallCacheRemove ctx key);;;
  on_store (Cache_Remove (cache p) ctx key).

Definition getter_Get (getter : SingleGetter G) (ctx : context) (key : string)
    : M (string * bool * option error) :=
  record (CallOriginGet ctx key);;;
  on_origin (getter ctx key).

(** [g.Do(key, fn)] of singleflight, for a key with no call in flight: [fn]
    runs and its results are returned, not shared. *)
Definition singleflight_Do (g : Group) (key : string)
    (fn : M (iface * option error)) : M (iface * option error * bool) :=
  let* '(v, err) := fn in
  ret (v, err, false).

(** [val.(string)]: the assertion panics on a nil interface. *)
Definition assert_string (val : iface) : M string :=
  match val with
  | iface_string s => ret s
  | iface_nil => panic "interface conversion: interface {} is nil, not string"
  end.

Definition getResource (p : t) (ctx : context) (key : string)
    (getter : SingleGetter G) : M (string * bool * option error) :=
  let* '(val, err, _) :=
    singleflight_Do (getGroup p) key
      (let* '(data, needFastRequery, getErr) := getter_Get getter ctx key in
       match getErr with
       | Some e => ret (iface_nil, Some e)
       | None =>
           if needFastRequery then ret (iface_string data, Some fastRequeryErr)
           else ret (iface_string data, None)
       end) in
  let* res := assert_string val in
  match err with
  | Some e =>
      if errors_Is e fastRequeryErr then ret (res, true, None)
      else ret ("", false, Some e)
  | None => ret (res, false, None)
  end.

Definition setData (p : t) (ctx : context) (c : CacheContext) (key data : string)
    (needFastRequery : bool) : M (option error) :=
  let* now := time_Now in
  let sv := mkStringView now needFastRequery false data in
  cache_Set p ctx key sv (ExpiredTime c) (EmptyExpiredTime c).

(** [GetHit]; [None] is a nil [*CacheProxy]. *)
Definition GetHit (p : option t) (ctx : context) (c : CacheContext)
    (key : string) (getter : SingleGetter G) : M (string * bool * option error) :=
  match p with
  | None => panic "empty cacheProxy"
  | Some p =>
      if Z.of_nat (String.length key) =? 0 then ret ("", false, None)
      else if NeedForceRefresh c then
        let* '(data, needFastRequery, err) := getResource p ctx key getter in
        match err with
        | Some e => ret ("", false, Some e)
        | None =>
            let* err := setData p Background c key data needFastRequery in
            match err with
            | Some e => ret ("", false, Some e)
            | None => ret (data, false, None)
            end
        end
      else
        let* '(sv, exist', err) := cache_Get p ctx key in
        match err with
        | Some e => ret ("", false, Some e)
        | None =>
            if negb exist' then
              let* '(data, needFastRequery, err) := getResource p ctx key getter in
              match err with
              | Some e => ret ("", false, Some e)
              | None =>
                  go (TaskWriteBack c key data needFastRequery);;;
                  ret (data, false, None)
              end
            else if NeedCacheRefresh c then
              let* now := time_Now in
              if negb (IsExpire sv (RefreshOffset c) (FastRefreshOffset c) now)
              then ret (String_ sv, true, None)
              else
                go (TaskRefresh c key getter);;;
                ret (String_ sv, true, None)
            else ret (String_ sv, true, None)
        end
  end.

Definition Set_ (p : option t) (ctx : context) (c : CacheContext)
    (key value : string) : M (option error) :=
  match p with
  | None => panic "empty cacheProxy"
  | Some p => setData p ctx c key value false
  end.

Definition Remove (p : option t) (ctx : context) (c : CacheContext)
    (key : string) : M (option error) :=
  match p with
  | None => panic "empty cacheProxy"
  | Some p => cache_Remove p ctx key
  end.

(** The body of a goroutine started by [GetHit]. *)
Definition run_task (p : t) (tk : Task) : M unit :=
  match tk with
  | TaskWriteBack c key data needFastRequery =>
      let* setErr := setData p Background c key data needFastRequery in
      match setErr with
      | Some e => logger_Error ("cacheProxy setErr:" +:+ Error e)
      | None => ret tt
      end
  | TaskRefresh c key getter =>
      let newCtx := Background in
      let* '(data, needFastRequery, err2) := getResource p newCtx key getter in
      (match err2 with
       | Some e => logger_Error ("cacheProxy refresh getResource err:" +:+ Error e)
       | None => ret tt
       end);;;
      let* err2 := setData p newCtx c key data needFastRequery in
      match err2 with
      | Some e => logger_Error ("cacheProxy refresh setData err:" +:+ Error e)
      | None => ret tt
      end
  end.

(** *** Runs of the process

    What happens to a proxy over time: callers use the three exported
    methods, the scheduler runs a goroutine that was started, the wall clock
    moves.  A panic ends the run. *)
Inductive Action : Type :=
| ActGetHit (ctx : context) (c : CacheContext) (key : string)
    (getter : SingleGetter G)
| ActSet (ctx : context) (c : CacheContext) (key value : string)
| ActRemove (ctx : context) (c : CacheContext) (key : string)
| ActRunTask (i : nat)
| ActClock (now : Time).

Definition take_task (i : nat) : M (option Task) :=
  fun w =>
    match w_tasks w !! i with
    | None => (Ok None, w)
    | Some tk =>
        (Ok (Some tk), mkWorld (w_now w) (w_store w) (w_origin w) (w_log w)
                         (delete i (w_tasks w)) (w_trace w))
    end.

Definition set_clock (now : Time) : M unit :=
  fun w => (Ok tt, mkWorld now (w_store w) (w_origin w) (w_log w)
                      (w_tasks w) (w_trace w)).

Definition act (p : t) (a : Action) : M unit :=
  match a with
  | ActGetHit ctx c key getter => GetHit (Some p) ctx c key getter;;; ret tt
  | ActSet ctx c key value => Set_ (Some p) ctx c key value;;; ret tt
  | ActRemove ctx c key => Remove (Some p) ctx c key;;; ret tt
  | ActRunTask i =>
      let* tk := take_task i in
      match tk with
      | Some tk => run_task p tk
      | None => ret tt
      end
  | ActClock now => set_clock now
  end.

Fixpoint run (p : t) (l : list Action) : M unit :=
  match l with
  | [] => ret tt
  | a :: l => act p a;;; run p l
  end.
End Proxy.
End CacheProxy.

(** [newCacheProxy(rdb)], for a given codec. *)
Definition newCacheProxy {R : Type} (sonic : Sonic) (rdb : option (RedisClient R))
    : CacheProxy.t (S := R) :=
  CacheProxy.mk (RedisCache.as_Cache sonic (RedisCache.NewRedisAdaptor rdb))
                CacheProxy.mkGroup.

(** ** In-memory collaborators

    A redis server kept as a finite map from keys to a value and the
    expiration it was written with, which refuses every command while [down];
    a codec writing the two flags, the creation time in decimal and the
    payload; and an origin that answers from a table. *)
Module Mem.
Record Redis : Type := mkRedis {
  entries : gmap string (string * Duration);
  down : bool
}.

Definition refused : error := errors_New "dial tcp: connection refused".

Definition client : RedisClient Redis :=
  mkRedisClient Redis
    (fun _ key r =>
       if down r then (("", Some refused), r)
       else match entries r !! key with
            | Some (v, _) => ((v, None), r)
            | None => (("", Some redis_Nil), r)
            end)
    (fun _ key value expiration r =>
       if down r then (("", Some refused), r)
       else (("OK", None), mkRedis (<[key := (value, expiration)]> (entries r)) false))
    (fun _ key r =>
       if down r then ((0, Some refused), r)
       else ((match entries r !! key with Some _ => 1 | None => 0 end, None),
             mkRedis (delete key (entries r)) false)).

Definition flag (b : bool) : string := if b then "t" else "f".

Definition encode (v : StringView) : string :=
  flag (NeedFastRequery v) +:+ flag (IsNil v) +:+ pretty (Ctime v) +:+ ";" +:+ Data v.

Fixpoint digits (s : string) (acc : Z) : option (Z * string) :=
  match s with
  | EmptyString => None
  | String a rest =>
      if Ascii.eqb a ";"%char then Some (acc, rest)
      else match Ascii.is_nat a with
           | Some d => digits rest (10 * acc + Z.of_nat d)
           | None => None
           end
  end.

Definition unflag (a : Ascii.ascii) : option bool :=
  if Ascii.eqb a "t"%char then Some true
  else if Ascii.eqb a "f"%char then Some false else None.

Definition decode (s : string) : option StringView :=
  match s with
  | String a (String b rest) =>
      match unflag a, unflag b with
      | Some fast, Some isnil =>
          let number :=
            match rest with
            | String sign rest' =>
                if Ascii.eqb sign "-"%char
                then match digits rest' 0 with
                     | Some (n, d) => Some (- n, d)
                     | None => None
                     end
                else digits rest 0
            | EmptyString => None
            end in
          match number with
          | Some (ctime, data) => Some (mkStringView ctime fast isnil data)
          | None => None
          end
      | _, _ => None
      end
  | _ => None
  end.

Definition sonic : Sonic :=
  mkSonic
    (fun v => (encode v, None))
    (fun s => match decode s with
              | Some v => (v, None)
              | None => (StringView_zero, Some (errors_New "invalid character"))
              end).

Definition no_record : error := errors_New "origin: no such record".

(** The origin: a table of answers; a key that is not in it is an error. *)
Definition Origin : Type := gmap string (string * bool).

Definition getter : SingleGetter Origin :=
  fun _ key g =>
    match g !! key with
    | Some (data, needFastRequery) => ((data, needFastRequery, None), g)
    | None => (("", false, Some no_record), g)
    end.

Definition proxy : CacheProxy.t (S := Redis) :=
  newCacheProxy sonic (Some client).

(** A process in which [InitLogger] has run and nothing has happened yet. *)
Definition world (now : Time) (r : Redis) (g : Origin)
    : CacheProxy.World (S := Redis) (G := Origin) :=
  CacheProxy.mkWorld now r g (Some []) [] [].

Definition policy (force refresh : bool) : CacheContext :=
  mkCacheContext force refresh defaultRefreshTime 1000000000
                 defaultExpiredTime 60000000000.

Definition req : context := Caller "GET /item".

(** An empty redis and an origin that knows ["k"] only. *)
Definition cold : CacheProxy.World (S := Redis) (G := Origin) :=
  world 1000 (mkRedis ∅ false) {[ "k" := ("v", false) ]}.

(** Redis holds, under ["k"], the payload ["old"] written at time 1000; the
    origin now answers ["new"]; the clock reads [now]. *)
Definition old_value : StringView := mkStringView 1000 false false "old".

Definition warm (now : Time) : CacheProxy.World (S := Redis) (G := Origin) :=
  world now (mkRedis {[ "k" := (encode old_value, defaultExpiredTime) ]} false)
        {[ "k" := ("new", false) ]}.

(** The same with an origin that has lost the record. *)
Definition orphan (now : Time) : CacheProxy.World (S := Redis) (G := Origin) :=
  world now (mkRedis {[ "k" := (encode old_value, defaultExpiredTime) ]} false) ∅.

(** A time at which [old_value] is stale under [policy]. *)
Definition later : Time := 1000 + defaultRefreshTime + 1.

(** A process in which [InitLogger] has not run: the package logger is
    nil. *)
Definition unlogged (now : Time) (r : Redis) (g : Origin)
    : CacheProxy.World (S := Redis) (G := Origin) :=
  CacheProxy.mkWorld now r g None [] [].

(** Redis holds, under ["k"], a value marked absent with the payload ["x"];
    the origin answers ["new"]. *)
Definition marked_value : StringView := mkStringView 1000 false true "x".

Definition marked : CacheProxy.World (S := Redis) (G := Origin) :=
  world 2000 (mkRedis {[ "k" := (encode marked_value, defaultExpiredTime) ]} false)
        {[ "k" := ("new", false) ]}.
End Mem.

(** ** util/slice.go *)

Module Util.
Section Comparable.
Context {T : Type} `{Countable T}.

(** One turn of the loop of [SliceRemoveDuplicates], on [uniqueMap] and
    [uniqueSlice]. *)
Definition unique_step (st : gset T * list T) (item : T) : gset T * list T :=
  let '(uniqueMap, uniqueSlice) := st in
  if decide (item ∈ uniqueMap) then st
  else ({[ item ]} ∪ uniqueMap, (uniqueSlice ++ [item])%list).

(** [SliceRemoveDuplicates], for a type whose [==] is equality. *)
Definition SliceRemoveDuplicates (slice : list T) : list T :=
  if (length slice <=? 1)%nat then slice
  else snd (foldl unique_step (∅, []) slice).
End Comparable.

Section Comparator.
Context {T : Type}.

(** [type Comparator[T any] func(a, b T) bool] *)
Definition Comparator : Type := T -> T -> bool.

(** The inner loop of [UniqueWithComparator]: [result] is scanned from the
    front and the scan stops at the first element [eq] accepts. *)
Fixpoint isDuplicate (eq : Comparator) (item : T) (result : list T) : bool :=
  match result with
  | [] => false
  | existing :: rest =>
      if eq item existing then true else isDuplicate eq item rest
  end.

Definition comparator_step (eq : Comparator) (result : list T) (item : T)
    : list T :=
  if negb (isDuplicate eq item result) then (result ++ [item])%list else result.

Definition UniqueWithComparator (slice : list T) (eq : Comparator) : list T :=
  if (length slice <=? 1)%nat then slice
  else foldl (comparator_step eq) [] slice.
End Comparator.
End Util.

(** ** Vocabulary of the statements *)

(** A store write found in the trace carries a value that is not marked
    absent and whose creation time is the reading of the clock at the write. *)
Definition write_ok (ev : Event) : bool :=
  match ev_call ev with
  | CallCacheSet _ _ value _ _ => negb (IsNil value) && (Ctime value =? ev_at ev)
  | _ => true
  end.

Definition trace_ok (tr : list Event) : bool := forallb write_ok tr.

(** The panic of [logger.Error] on the nil package logger. *)
Definition nil_logger : string :=
  "runtime error: invalid memory address or nil pointer dereference".

(** The panic of the type assertion in [getResource]. *)
Definition nil_assertion : string :=
  "interface conversion: interface {} is nil, not string".

(** * Properties *)

Import CacheProxy.

(** ** Stored value *)

Lemma Time_Before_Add_lt (t : Time) (d : Duration) (now : Time) :
  Time_Before (Time_Add t d) now = true <-> t + d < now.
Proof. unfold Time_Before, Time_Add. apply Z.ltb_lt. Qed.

(** C6.  [IsExpire] answers false for a value whose [Ctime] is the zero time,
    whatever the offsets; for any other value it is true exactly when [Ctime]
    plus the selected offset is before the current time, the selected offset
    being [fastOffset] when [NeedFastRequery] is set and [normalOffset] when
    it is not. *)
Theorem IsExpire_spec (v : StringView) (normalOffset fastOffset : Duration)
    (now : Time) :
  (Time_IsZero (Ctime v) = true ->
     IsExpire v normalOffset fastOffset now = false) /\
  (Time_IsZero (Ctime v) = false ->
     (NeedFastRequery v = true ->
        (IsExpire v normalOffset fastOffset now = true <->
         Ctime v + fastOffset < now)) /\
     (NeedFastRequery v = false ->
        (IsExpire v normalOffset fastOffset now = true <->
         Ctime v + normalOffset < now))).
Proof.
  unfold IsExpire. split.
  - intros ->. reflexivity.
  - intros ->. split; intros ->.
    + rewrite <- Time_Before_Add_lt.
      destruct (Time_Before _ _); intuition congruence.
    + rewrite <- Time_Before_Add_lt.
      destruct (Time_Before _ _); intuition congruence.
Qed.

(** A value flagged for fast requery is stale once [fastOffset] has elapsed
    although [normalOffset] has not; the same value without the flag is not. *)
Lemma IsExpire_fast_requery (ctime : Time) (data : string)
    (normalOffset fastOffset : Duration) (now : Time) :
  ctime <> 0 ->
  ctime + fastOffset < now <= ctime + normalOffset ->
  IsExpire (mkStringView ctime true false data) normalOffset fastOffset now = true /\
  IsExpire (mkStringView ctime false false data) normalOffset fastOffset now = false.
Proof.
  intros Hz [Hf Hn]. unfold IsExpire, Time_IsZero, Time_Before, Time_Add. simpl.
  destruct (Z.eqb_spec ctime 0); [contradiction|].
  destruct (Z.ltb_spec (ctime + fastOffset) now); [|lia].
  destruct (Z.ltb_spec (ctime + normalOffset) now); [lia|]. auto.
Qed.

(** ** The proxy on one call *)

Lemma nonempty_length (key : string) :
  key <> "" -> (Z.of_nat (String.length key) =? 0) = false.
Proof. destruct key; [congruence|]. intros _. reflexivity. Qed.

Lemma nonempty_length_le (key : string) :
  key <> "" -> (Z.of_nat (String.length key) <=? 0) = false.
Proof.
  destruct key; [congruence|]. intros _. apply Z.leb_gt. simpl String.length. lia.
Qed.

Ltac proxy_unfold :=
  unfold GetHit, Set_, Remove, run_task, getResource, setData, singleflight_Do,
    assert_string, cache_Get, cache_Set, cache_Remove, getter_Get, go, record,
    on_store, on_origin, logger_Error, time_Now, bind, ret, panic.

Section OneCall.
Context {S G : Type}.
Variable p : CacheProxy.t (S := S).
Implicit Types (w : World (S := S) (G := G)) (getter : SingleGetter G).

(** [getResource] when the getter answers without error: the answer is
    handed on, the fast-requery flag travelling through the sentinel. *)
Lemma getResource_ok ctx key getter w data fast g' :
  getter ctx key (w_origin w) = ((data, fast, None), g') ->
  getResource p ctx key getter w =
    (Ok (data, fast, None),
     mkWorld (w_now w) (w_store w) g' (w_log w) (w_tasks w)
       (w_trace w ++ [mkEvent (w_now w) (CallOriginGet ctx key)])).
Proof.
  intros Hg. proxy_unfold. simpl. rewrite Hg. destruct fast; reflexivity.
Qed.

(** [getResource] when the getter answers with an error: the closure hands
    a nil interface to [Do], and the type assertion panics before the error
    is looked at. *)
Lemma getResource_err ctx key getter w data fast e g' :
  getter ctx key (w_origin w) = ((data, fast, Some e), g') ->
  getResource p ctx key getter w =
    (Panic nil_assertion,
     mkWorld (w_now w) (w_store w) g' (w_log w) (w_tasks w)
       (w_trace w ++ [mkEvent (w_now w) (CallOriginGet ctx key)])).
Proof.
  intros Hg. proxy_unfold. simpl. rewrite Hg. reflexivity.
Qed.

(** The error result of [getResource] is never used: whenever it returns,
    the error is nil. *)
Lemma getResource_returns_no_error ctx key getter w data fast err w' :
  getResource p ctx key getter w = (Ok (data, fast, err), w') -> err = None.
Proof.
  destruct (getter ctx key (w_origin w)) as [[[d f] [e|]] g'] eqn:Hg.
  - rewrite (getResource_err _ _ _ _ _ _ _ _ Hg). discriminate.
  - rewrite (getResource_ok _ _ _ _ _ _ _ Hg). congruence.
Qed.

(** C2.  On the two paths where the caller waits for the origin (a forced
    refresh, or a store read that finds nothing), an error of the getter is
    not returned by [GetHit]: the call panics on the type assertion of
    [getResource]. *)
Theorem GetHit_origin_error_panics ctx c key getter w data fast e g' :
  key <> "" ->
  getter ctx key (w_origin w) = ((data, fast, Some e), g') ->
  (NeedForceRefresh c = true \/
   exists sv s', Cache_Get (cache p) ctx key (w_store w) = (Ok (sv, false, None), s')) ->
  fst (GetHit (Some p) ctx c key getter w) = Panic nil_assertion.
Proof.
  intros Hk Hg Hpath. unfold GetHit. rewrite (nonempty_length key Hk).
  destruct (NeedForceRefresh c) eqn:Hf.
  - unfold bind at 1. rewrite (getResource_err _ _ _ _ _ _ _ _ Hg). reflexivity.
  - destruct Hpath as [|(sv & s' & Hget)]; [discriminate|].
    unfold cache_Get, bind, record, on_store. simpl. rewrite Hget. simpl.
    match goal with |- context [getResource p ctx key getter ?w1] =>
      rewrite (getResource_err ctx key getter w1 data fast e g' Hg) end.
    reflexivity.
Qed.

(** C5 (the fetch error).  With [NeedForceRefresh], an error of the getter
    makes [GetHit] panic; the store has been neither read nor written and
    the error is not returned. *)
Theorem GetHit_force_origin_error ctx c key getter w data fast e g' :
  key <> "" ->
  NeedForceRefresh c = true ->
  getter ctx key (w_origin w) = ((data, fast, Some e), g') ->
  GetHit (Some p) ctx c key getter w =
    (Panic nil_assertion,
     mkWorld (w_now w) (w_store w) g' (w_log w) (w_tasks w)
       (w_trace w ++ [mkEvent (w_now w) (CallOriginGet ctx key)])).
Proof.
  intros Hk Hf Hg. unfold GetHit. rewrite (nonempty_length key Hk), Hf.
  unfold bind at 1. rewrite (getResource_err _ _ _ _ _ _ _ _ Hg). reflexivity.
Qed.

(** With [NeedForceRefresh] and a getter that answers, the store is not
    read: the answer is written at once, under [context.Background()], and
    [GetHit] returns the answer as a miss, or the error of the write. *)
Lemma GetHit_force_refresh ctx c key getter w data fast g' r s' :
  key <> "" ->
  NeedForceRefresh c = true ->
  getter ctx key (w_origin w) = ((data, fast, None), g') ->
  Cache_Set (cache p) Background key (mkStringView (w_now w) fast false data)
    (ExpiredTime c) (EmptyExpiredTime c) (w_store w) = (Ok r, s') ->
  GetHit (Some p) ctx c key getter w =
    (Ok (match r with
         | None => (data, false, None)
         | Some e => ("", false, Some e)
         end),
     mkWorld (w_now w) s' g' (w_log w) (w_tasks w)
       (w_trace w ++
        [mkEvent (w_now w) (CallOriginGet ctx key);
         mkEvent (w_now w)
           (CallCacheSet Background key (mkStringView (w_now w) fast false data)
              (ExpiredTime c) (EmptyExpiredTime c))])).
Proof.
  intros Hk Hf Hg Hset. unfold GetHit. rewrite (nonempty_length key Hk), Hf.
  unfold bind at 1. rewrite (getResource_ok _ _ _ _ _ _ _ Hg).
  proxy_unfold. simpl. rewrite Hset. rewrite <- app_assoc.
  destruct r; reflexivity.
Qed.

(** A store read that fails is returned as it is. *)
Lemma GetHit_read_error ctx c key getter w sv found e s' :
  key <> "" ->
  NeedForceRefresh c = false ->
  Cache_Get (cache p) ctx key (w_store w) = (Ok (sv, found, Some e), s') ->
  GetHit (Some p) ctx c key getter w =
    (Ok ("", false, Some e),
     mkWorld (w_now w) s' (w_origin w) (w_log w) (w_tasks w)
       (w_trace w ++ [mkEvent (w_now w) (CallCacheGet ctx key)])).
Proof.
  intros Hk Hf Hget. unfold GetHit. rewrite (nonempty_length key Hk), Hf.
  proxy_unfold. simpl. rewrite Hget. reflexivity.
Qed.

(** The write-back goroutine: one store write under
    [context.Background()]; when the write fails its error is given to
    [logger.Error] and goes nowhere else. *)
Lemma run_task_write_back c key data fast w r s' :
  Cache_Set (cache p) Background key (mkStringView (w_now w) fast false data)
    (ExpiredTime c) (EmptyExpiredTime c) (w_store w) = (Ok r, s') ->
  run_task p (TaskWriteBack c key data fast) w =
    match r with
    | None => ret tt
    | Some e => logger_Error ("cacheProxy setErr:" +:+ Error e)
    end
      (mkWorld (w_now w) s' (w_origin w) (w_log w) (w_tasks w)
         (w_trace w ++
          [mkEvent (w_now w)
             (CallCacheSet Background key (mkStringView (w_now w) fast false data)
                (ExpiredTime c) (EmptyExpiredTime c))])).
Proof.
  intros Hset. unfold run_task, setData, cache_Set, time_Now, record, on_store,
    bind. simpl. rewrite Hset. reflexivity.
Qed.
End OneCall.

(** ** The paths of [GetHit] that read the store *)

#[local] Arguments IsExpire : simpl never.

Section Lookup.
Context {S G : Type}.
Variable p : CacheProxy.t (S := S).
Implicit Types (w : World (S := S) (G := G)) (getter : SingleGetter G).

(** The adaptor reports a key that redis does not hold as not found, with a
    value marked absent and no error. *)
Lemma RedisCache_Get_absent {R : Type} (sonic : Sonic) (cl : RedisClient R)
    ctx key (r r' : R) reply :
  rdb_Get cl ctx key r = ((reply, Some redis_Nil), r') ->
  RedisCache.Get sonic (RedisCache.NewRedisAdaptor (Some cl)) ctx key r =
    (Ok (StringView_nil, false, None), r').
Proof.
  intros Hget. unfold RedisCache.Get. simpl.
  replace (Z.of_nat (String.length key) <? 0) with false
    by (symmetry; apply Z.ltb_ge; lia).
  rewrite Hget. reflexivity.
Qed.

(** C4, as the code decides a miss.  For a non-empty key and without
    [NeedForceRefresh], when the store read reports the key as not found
    (this is how the adaptor reports a key redis does not hold, together with
    a value marked absent), [GetHit] asks the origin before it returns,
    returns the origin's payload with [false] and no error, and leaves the
    store write to a goroutine: when [GetHit] returns the write has not been
    made.  The goroutine writes under [context.Background()].  When its write
    fails the error reaches no caller: with the package logger made by
    [InitLogger] the error is logged and the goroutine ends; on the nil logger
    [logger.Error] panics in the goroutine.  The mark [IsNil] of the value
    plays no part: a value the store reports as found is served as a hit,
    marked absent or not. *)
Theorem GetHit_miss ctx c key getter w sv s' data fast g' :
  key <> "" ->
  NeedForceRefresh c = false ->
  Cache_Get (cache p) ctx key (w_store w) = (Ok (sv, false, None), s') ->
  getter ctx key (w_origin w) = ((data, fast, None), g') ->
  GetHit (Some p) ctx c key getter w =
    (Ok (data, false, None),
     mkWorld (w_now w) s' g' (w_log w)
       (w_tasks w ++ [TaskWriteBack c key data fast])
       (w_trace w ++
        [mkEvent (w_now w) (CallCacheGet ctx key);
         mkEvent (w_now w) (CallOriginGet ctx key)])) /\
  (forall (w1 : World (S := S) (G := G)) s1,
     Cache_Set (cache p) Background key
       (mkStringView (w_now w1) fast false data)
       (ExpiredTime c) (EmptyExpiredTime c) (w_store w1) = (Ok None, s1) ->
     run_task p (TaskWriteBack c key data fast) w1 =
       (Ok tt,
        mkWorld (w_now w1) s1 (w_origin w1) (w_log w1) (w_tasks w1)
          (w_trace w1 ++
           [mkEvent (w_now w1)
              (CallCacheSet Background key
                 (mkStringView (w_now w1) fast false data)
                 (ExpiredTime c) (EmptyExpiredTime c))]))) /\
  (forall (w1 : World (S := S) (G := G)) e s1 lines,
     Cache_Set (cache p) Background key
       (mkStringView (w_now w1) fast false data)
       (ExpiredTime c) (EmptyExpiredTime c) (w_store w1) = (Ok (Some e), s1) ->
     w_log w1 = Some lines ->
     run_task p (TaskWriteBack c key data fast) w1 =
       (Ok tt,
        mkWorld (w_now w1) s1 (w_origin w1)
          (Some (lines ++ ["cacheProxy setErr:" +:+ Error e])%list) (w_tasks w1)
          (w_trace w1 ++
           [mkEvent (w_now w1)
              (CallCacheSet Background key
                 (mkStringView (w_now w1) fast false data)
                 (ExpiredTime c) (EmptyExpiredTime c))]))) /\
  (forall (w1 : World (S := S) (G := G)) e s1,
     Cache_Set (cache p) Background key
       (mkStringView (w_now w1) fast false data)
       (ExpiredTime c) (EmptyExpiredTime c) (w_store w1) = (Ok (Some e), s1) ->
     w_log w1 = None ->
     run_task p (TaskWriteBack c key data fast) w1 =
       (Panic nil_logger,
        mkWorld (w_now w1) s1 (w_origin w1) None (w_tasks w1)
          (w_trace w1 ++
           [mkEvent (w_now w1)
              (CallCacheSet Background key
                 (mkStringView (w_now w1) fast false data)
                 (ExpiredTime c) (EmptyExpiredTime c))]))) /\
  (forall (R : Type) (sonic : Sonic) (cl : RedisClient R) (r r' : R) reply,
     rdb_Get cl ctx key r = ((reply, Some redis_Nil), r') ->
     RedisCache.Get sonic (RedisCache.NewRedisAdaptor (Some cl)) ctx key r =
       (Ok (StringView_nil, false, None), r') /\
     IsNil StringView_nil = true) /\
  (forall (w2 : World (S := S) (G := G)) sv2 s2,
     Cache_Get (cache p) ctx key (w_store w2) = (Ok (sv2, true, None), s2) ->
     fst (GetHit (Some p) ctx c key getter w2) = Ok (Data sv2, true, None)).
Proof.
  intros Hk Hf Hget Hg. repeat split.
  - unfold GetHit. rewrite (nonempty_length key Hk), Hf.
    unfold cache_Get, bind, record, on_store. simpl. rewrite Hget. simpl.
    match goal with |- context [getResource p ctx key getter ?w1] =>
      rewrite (getResource_ok p ctx key getter w1 data fast g' Hg) end.
    unfold go, ret. simpl. rewrite <- app_assoc. reflexivity.
  - intros w1 s1 Hset. rewrite (run_task_write_back p _ _ _ _ _ _ _ Hset).
    reflexivity.
  - intros w1 e s1 lines Hset Hlog.
    rewrite (run_task_write_back p _ _ _ _ _ _ _ Hset).
    unfold logger_Error. simpl. rewrite Hlog. reflexivity.
  - intros w1 e s1 Hset Hlog.
    rewrite (run_task_write_back p _ _ _ _ _ _ _ Hset).
    unfold logger_Error. simpl. rewrite Hlog. reflexivity.
  - eapply RedisCache_Get_absent. eassumption.
  - intros w2 sv2 s2 Hget2. unfold GetHit.
    rewrite (nonempty_length key Hk), Hf.
    unfold cache_Get, bind, record, on_store, time_Now, go, ret. simpl.
    rewrite Hget2. simpl.
    destruct (NeedCacheRefresh c); [|reflexivity].
    destruct (negb (IsExpire sv2 _ _ _)); reflexivity.
Qed.

(** C9.  For a non-empty key and without [NeedForceRefresh], when the store
    read finds the key and [NeedCacheRefresh] is off, [GetHit] returns the
    stored payload with [true] and no error, whatever the offsets, the age
    of the value and the clock: the only call made is the store read, no
    goroutine is started, nothing is logged and the origin is left alone. *)
Theorem GetHit_hit_no_refresh ctx c key getter w sv s' :
  key <> "" ->
  NeedForceRefresh c = false ->
  NeedCacheRefresh c = false ->
  Cache_Get (cache p) ctx key (w_store w) = (Ok (sv, true, None), s') ->
  GetHit (Some p) ctx c key getter w =
    (Ok (Data sv, true, None),
     mkWorld (w_now w) s' (w_origin w) (w_log w) (w_tasks w)
       (w_trace w ++ [mkEvent (w_now w) (CallCacheGet ctx key)])).
Proof.
  intros Hk Hf Hr Hget. unfold GetHit.
  rewrite (nonempty_length key Hk), Hf.
  unfold cache_Get, bind, record, on_store. simpl. rewrite Hget. simpl.
  rewrite Hr. reflexivity.
Qed.

(** With [NeedCacheRefresh], a stored value that is not stale is returned
    and nothing else happens. *)
Lemma GetHit_hit_fresh ctx c key getter w sv s' :
  key <> "" ->
  NeedForceRefresh c = false ->
  NeedCacheRefresh c = true ->
  Cache_Get (cache p) ctx key (w_store w) = (Ok (sv, true, None), s') ->
  IsExpire sv (RefreshOffset c) (FastRefreshOffset c) (w_now w) = false ->
  GetHit (Some p) ctx c key getter w =
    (Ok (Data sv, true, None),
     mkWorld (w_now w) s' (w_origin w) (w_log w) (w_tasks w)
       (w_trace w ++ [mkEvent (w_now w) (CallCacheGet ctx key)])).
Proof.
  intros Hk Hf Hr Hget Hfresh. unfold GetHit.
  rewrite (nonempty_length key Hk), Hf.
  unfold cache_Get, bind, record, on_store, time_Now. simpl.
  rewrite Hget. simpl. rewrite Hr. cbn [w_now]. rewrite Hfresh. reflexivity.
Qed.

(** With [NeedCacheRefresh], a stored value that is stale is returned at
    once, and the refresh is left to a goroutine: when [GetHit] returns the
    origin has not been asked and the store has not been written. *)
Lemma GetHit_hit_stale ctx c key getter w sv s' :
  key <> "" ->
  NeedForceRefresh c = false ->
  NeedCacheRefresh c = true ->
  Cache_Get (cache p) ctx key (w_store w) = (Ok (sv, true, None), s') ->
  IsExpire sv (RefreshOffset c) (FastRefreshOffset c) (w_now w) = true ->
  GetHit (Some p) ctx c key getter w =
    (Ok (Data sv, true, None),
     mkWorld (w_now w) s' (w_origin w) (w_log w)
       (w_tasks w ++ [TaskRefresh c key getter])
       (w_trace w ++ [mkEvent (w_now w) (CallCacheGet ctx key)])).
Proof.
  intros Hk Hf Hr Hget Hstale. unfold GetHit.
  rewrite (nonempty_length key Hk), Hf.
  unfold cache_Get, bind, record, on_store, time_Now. simpl.
  rewrite Hget. simpl. rewrite Hr. cbn [w_now]. rewrite Hstale. reflexivity.
Qed.

(** The refresh goroutine when the origin answers: the answer is written
    under [context.Background()].  When the write succeeds nothing else
    happens; when it fails the error is logged and goes nowhere else, given
    the package logger made by [InitLogger]; on the nil logger
    [logger.Error] panics in the goroutine. *)
Lemma run_task_refresh c key getter w data fast g' r s' :
  getter Background key (w_origin w) = ((data, fast, None), g') ->
  Cache_Set (cache p) Background key (mkStringView (w_now w) fast false data)
    (ExpiredTime c) (EmptyExpiredTime c) (w_store w) = (Ok r, s') ->
  let after log :=
    mkWorld (w_now w) s' g' log (w_tasks w)
      (w_trace w ++
       [mkEvent (w_now w) (CallOriginGet Background key);
        mkEvent (w_now w)
          (CallCacheSet Background key (mkStringView (w_now w) fast false data)
             (ExpiredTime c) (EmptyExpiredTime c))]) in
  (r = None ->
   run_task p (TaskRefresh c key getter) w = (Ok tt, after (w_log w))) /\
  (forall e lines,
     r = Some e -> w_log w = Some lines ->
     run_task p (TaskRefresh c key getter) w =
       (Ok tt,
        after (Some (lines ++ ["cacheProxy refresh setData err:" +:+ Error e])%list))) /\
  (forall e,
     r = Some e -> w_log w = None ->
     run_task p (TaskRefresh c key getter) w = (Panic nil_logger, after None)).
Proof.
  intros Hg Hset after.
  assert (Hrun : run_task p (TaskRefresh c key getter) w =
                 match r with
                 | None => ret tt
                 | Some e =>
                     logger_Error ("cacheProxy refresh setData err:" +:+ Error e)
                 end (after (w_log w))).
  { unfold run_task. cbv zeta. unfold bind at 1.
    rewrite (getResource_ok p _ _ _ _ _ _ _ Hg).
    unfold setData, cache_Set, time_Now, record, on_store, bind, ret. simpl.
    rewrite Hset. unfold after. rewrite <- app_assoc. reflexivity. }
  rewrite Hrun. split; [|split].
  - intros ->. reflexivity.
  - intros e lines -> Hlog. unfold logger_Error, after. simpl. rewrite Hlog.
    reflexivity.
  - intros e -> Hlog. unfold logger_Error, after. simpl. rewrite Hlog.
    reflexivity.
Qed.

(** C3 (the error of the refresh).  In the refresh goroutine an error of
    the getter is not logged: the goroutine panics on the type assertion of
    [getResource], before the line that would log the error, and the log is
    as it was. *)
Theorem run_task_refresh_origin_error c key getter w data fast e g' :
  getter Background key (w_origin w) = ((data, fast, Some e), g') ->
  run_task p (TaskRefresh c key getter) w =
    (Panic nil_assertion,
     mkWorld (w_now w) (w_store w) g' (w_log w) (w_tasks w)
       (w_trace w ++ [mkEvent (w_now w) (CallOriginGet Background key)])).
Proof.
  intros Hg. unfold run_task. cbv zeta. unfold bind at 1.
  rewrite (getResource_err p _ _ _ _ _ _ _ _ Hg). reflexivity.
Qed.
End Lookup.

(** ** Writes and removals through the redis adaptor *)

Section Redis.
Context {R G : Type}.
Variables (sonic : Sonic) (cl : RedisClient R).
Implicit Types (w : World (S := R) (G := G)).

Lemma empty_data_length (data : string) :
  (Z.of_nat (String.length data) =? 0) = bool_decide (data = "").
Proof. destruct data; reflexivity. Qed.

(** Every write of the proxy goes through [setData]: the value built there
    reaches redis under the key, with the expiration chosen by the payload. *)
Lemma setData_redis ctx c key data fast w valStr reply err r' :
  key <> "" ->
  MarshalString sonic (mkStringView (w_now w) fast false data) = (valStr, None) ->
  rdb_Set cl ctx key valStr
    (if bool_decide (data = "") then EmptyExpiredTime c else ExpiredTime c)
    (w_store w) = ((reply, err), r') ->
  setData (newCacheProxy sonic (Some cl)) ctx c key data fast w =
    (Ok err,
     mkWorld (w_now w) r' (w_origin w) (w_log w) (w_tasks w)
       (w_trace w ++
        [mkEvent (w_now w)
           (CallCacheSet ctx key (mkStringView (w_now w) fast false data)
              (ExpiredTime c) (EmptyExpiredTime c))])).
Proof.
  intros Hk Hm Hset. proxy_unfold. simpl. unfold RedisCache.Set_. simpl.
  rewrite (nonempty_length_le key Hk), Hm, empty_data_length, Hset. reflexivity.
Qed.

(** C7, for non-empty keys.  For every non-empty key and payload, [Set]
    hands the adaptor a value with [Ctime] the current time,
    [NeedFastRequery] false, [IsNil] false and the payload, and the adaptor
    writes it to redis with [EmptyExpiredTime] when the payload is the empty
    string and [ExpiredTime] otherwise; the same holds of every write made
    through [setData], whatever the context and the flag.  [Remove] sends the
    deletion to redis and returns the error of the reply, whatever the number
    of keys redis reports deleted: deleting a key that is not there is not an
    error. *)
Theorem Set_Remove_write_through ctx c key w :
  key <> "" ->
  (forall value valStr reply err r',
     MarshalString sonic (mkStringView (w_now w) false false value) = (valStr, None) ->
     rdb_Set cl ctx key valStr
       (if bool_decide (value = "") then EmptyExpiredTime c else ExpiredTime c)
       (w_store w) = ((reply, err), r') ->
     Set_ (Some (newCacheProxy sonic (Some cl))) ctx c key value w =
       (Ok err,
        mkWorld (w_now w) r' (w_origin w) (w_log w) (w_tasks w)
          (w_trace w ++
           [mkEvent (w_now w)
              (CallCacheSet ctx key (mkStringView (w_now w) false false value)
                 (ExpiredTime c) (EmptyExpiredTime c))]))) /\
  (forall ctx' data fast valStr reply err r',
     MarshalString sonic (mkStringView (w_now w) fast false data) = (valStr, None) ->
     rdb_Set cl ctx' key valStr
       (if bool_decide (data = "") then EmptyExpiredTime c else ExpiredTime c)
       (w_store w) = ((reply, err), r') ->
     setData (newCacheProxy sonic (Some cl)) ctx' c key data fast w =
       (Ok err,
        mkWorld (w_now w) r' (w_origin w) (w_log w) (w_tasks w)
          (w_trace w ++
           [mkEvent (w_now w)
              (CallCacheSet ctx' key (mkStringView (w_now w) fast false data)
                 (ExpiredTime c) (EmptyExpiredTime c))]))) /\
  (forall n err r',
     rdb_Del cl ctx key (w_store w) = ((n, err), r') ->
     Remove (Some (newCacheProxy sonic (Some cl))) ctx c key w =
       (Ok err,
        mkWorld (w_now w) r' (w_origin w) (w_log w) (w_tasks w)
          (w_trace w ++ [mkEvent (w_now w) (CallCacheRemove ctx key)]))).
Proof.
  intros Hk. split; [|split].
  - intros value valStr reply err r' Hm Hset. unfold Set_.
    eapply setData_redis; eassumption.
  - intros ctx' data fast valStr reply err r' Hm Hset.
    eapply setData_redis; eassumption.
  - intros n err r' Hdel. proxy_unfold. simpl. unfold RedisCache.Remove. simpl.
    rewrite (nonempty_length_le key Hk), Hdel. reflexivity.
Qed.

(** C8, as the code has it.  [GetHit] on the empty key returns the empty
    payload, [false] and no error, and the world is as it was: neither the
    store nor the getter has been called.  [Set] and [Remove] hand the empty
    key to the adaptor, which refuses it with [ErrInvalidKey] before sending
    anything to redis. *)
Theorem empty_key_outcomes (p : CacheProxy.t (S := R)) ctx c
    (getter : SingleGetter G) value w :
  GetHit (Some p) ctx c "" getter w = (Ok ("", false, None), w) /\
  Set_ (Some (newCacheProxy sonic (Some cl))) ctx c "" value w =
    (Ok (Some ErrInvalidKey),
     mkWorld (w_now w) (w_store w) (w_origin w) (w_log w) (w_tasks w)
       (w_trace w ++
        [mkEvent (w_now w)
           (CallCacheSet ctx "" (mkStringView (w_now w) false false value)
              (ExpiredTime c) (EmptyExpiredTime c))])) /\
  Remove (Some (newCacheProxy sonic (Some cl))) ctx c "" w =
    (Ok (Some ErrInvalidKey),
     mkWorld (w_now w) (w_store w) (w_origin w) (w_log w) (w_tasks w)
       (w_trace w ++ [mkEvent (w_now w) (CallCacheRemove ctx "")])).
Proof.
  split; [|split].
  - reflexivity.
  - reflexivity.
  - reflexivity.
Qed.

(** Reading back what [setData] wrote: when redis returns the text that was
    written and the codec decodes what it encoded, the adaptor reports the
    value as found. *)
Lemma RedisCache_Get_found ctx key (r r' : R) value valStr :
  MarshalString sonic value = (valStr, None) ->
  UnmarshalString sonic valStr = (value, None) ->
  rdb_Get cl ctx key r = ((valStr, None), r') ->
  RedisCache.Get sonic (RedisCache.NewRedisAdaptor (Some cl)) ctx key r =
    (Ok (value, true, None), r').
Proof.
  intros _ Hu Hget. unfold RedisCache.Get. simpl.
  replace (Z.of_nat (String.length key) <? 0) with false
    by (symmetry; apply Z.ltb_ge; lia).
  rewrite Hget, Hu. reflexivity.
Qed.
End Redis.

(** ** Every store write of the proxy, over a whole run *)

Section Writes.
Context {S G : Type}.
Variable p : CacheProxy.t (S := S).
Implicit Types (w : World (S := S) (G := G)).

(** A computation keeps the trace well stamped. *)
Definition keeps {A : Type} (m : M (S := S) (G := G) A) : Prop :=
  forall w r w', trace_ok (w_trace w) = true -> m w = (r, w') ->
                 trace_ok (w_trace w') = true.

Lemma trace_ok_snoc (tr : list Event) (ev : Event) :
  trace_ok tr = true -> write_ok ev = true -> trace_ok (tr ++ [ev]) = true.
Proof.
  unfold trace_ok. intros Htr Hev. rewrite forallb_app, Htr. simpl.
  rewrite Hev. reflexivity.
Qed.

Lemma keeps_ret {A} (a : A) : keeps (ret a).
Proof. intros w r w' Hok [= _ <-]. exact Hok. Qed.

Lemma keeps_panic {A} (v : string) : keeps (panic (A := A) v).
Proof. intros w r w' Hok [= _ <-]. exact Hok. Qed.

Lemma keeps_bind {A B} (m : M A) (k : A -> M B) :
  keeps m -> (forall a, keeps (k a)) -> keeps (bind m k).
Proof.
  intros Hm Hk w r w' Hok. unfold bind.
  destruct (m w) as [[a|v] w1] eqn:Em.
  - intros Ek. eapply Hk; [|exact Ek]. eapply Hm; eassumption.
  - intros [= _ <-]. eapply Hm; eassumption.
Qed.

Lemma keeps_same_trace {A} (m : M A) :
  (forall w r w', m w = (r, w') -> w_trace w' = w_trace w) -> keeps m.
Proof. intros Hsame w r w' Hok Em. rewrite (Hsame _ _ _ Em). exact Hok. Qed.

Lemma keeps_time_Now : keeps time_Now.
Proof. apply keeps_same_trace. intros w r w' [= _ <-]. reflexivity. Qed.

Lemma keeps_logger_Error msg : keeps (logger_Error msg).
Proof.
  apply keeps_same_trace. intros w r w'. unfold logger_Error.
  destruct (w_log w); intros [= _ <-]; reflexivity.
Qed.

Lemma keeps_go tk : keeps (go tk).
Proof. apply keeps_same_trace. intros w r w' [= _ <-]. reflexivity. Qed.

Lemma keeps_set_clock now : keeps (set_clock now).
Proof. apply keeps_same_trace. intros w r w' [= _ <-]. reflexivity. Qed.

Lemma keeps_take_task i : keeps (take_task i).
Proof.
  apply keeps_same_trace. intros w r w'. unfold take_task.
  destruct (w_tasks w !! i); intros [= _ <-]; reflexivity.
Qed.

Lemma keeps_on_store {A} (f : S -> Res A * S) : keeps (on_store f).
Proof.
  apply keeps_same_trace. intros w r w'. unfold on_store.
  destruct (f (w_store w)). intros [= _ <-]. reflexivity.
Qed.

Lemma keeps_on_origin {A} (f : G -> A * G) : keeps (on_origin f).
Proof.
  apply keeps_same_trace. intros w r w'. unfold on_origin.
  destruct (f (w_origin w)). intros [= _ <-]. reflexivity.
Qed.

(** Entering a call other than a store write. *)
Lemma keeps_record (c : Call) :
  (forall now, write_ok (mkEvent now c) = true) -> keeps (record c).
Proof.
  intros Hc w r w' Hok [= _ <-]. simpl. apply trace_ok_snoc; [exact Hok|apply Hc].
Qed.

Lemma keeps_cache_Get ctx key : keeps (cache_Get p ctx key).
Proof.
  apply keeps_bind; [apply keeps_record; reflexivity|].
  intros _. apply keeps_on_store.
Qed.

Lemma keeps_cache_Remove ctx key : keeps (cache_Remove p ctx key).
Proof.
  apply keeps_bind; [apply keeps_record; reflexivity|].
  intros _. apply keeps_on_store.
Qed.

Lemma keeps_getter_Get getter ctx key : keeps (getter_Get getter ctx key).
Proof.
  apply keeps_bind; [apply keeps_record; reflexivity|].
  intros _. apply keeps_on_origin.
Qed.

(** The one place where the proxy writes: the value is built from the clock
    that also stamps the call. *)
Lemma keeps_setData ctx c key data fast : keeps (setData p ctx c key data fast).
Proof.
  intros w r w' Hok. unfold setData, time_Now, cache_Set, bind, record. simpl.
  unfold on_store. simpl.
  destruct (Cache_Set _ _ _ _ _ _ _) as [[e|v] s1]; intros [= _ <-]; simpl;
    (apply trace_ok_snoc; [exact Hok|]);
    unfold write_ok; simpl; rewrite Z.eqb_refl; reflexivity.
Qed.

Ltac keeps_intro :=
  lazymatch goal with
  | |- forall _ : _ * _ * _, _ => intros [[? ?] ?]
  | |- forall _ : _ * _, _ => intros [? ?]
  | |- forall _, _ => intros ?
  end.

Ltac keeps_case :=
  lazymatch goal with
  | |- keeps (match ?x with _ => _ end) => destruct x
  end.

Lemma keeps_getResource ctx key getter : keeps (getResource p ctx key getter).
Proof.
  unfold getResource, singleflight_Do, assert_string.
  repeat first
    [ apply keeps_ret | apply keeps_panic | apply keeps_getter_Get
    | apply keeps_bind | keeps_intro | progress cbv beta iota | keeps_case ].
Qed.

Ltac keeps_step :=
  first
    [ apply keeps_ret | apply keeps_panic | apply keeps_setData
    | apply keeps_getResource | apply keeps_cache_Get | apply keeps_cache_Remove
    | apply keeps_go | apply keeps_logger_Error | apply keeps_time_Now
    | apply keeps_bind | keeps_intro | progress cbv beta iota | keeps_case ].

Lemma keeps_GetHit ctx c key getter : keeps (GetHit (Some p) ctx c key getter).
Proof. unfold GetHit. repeat keeps_step. Qed.

Lemma keeps_Set ctx c key value : keeps (Set_ (Some p) ctx c key value).
Proof. unfold Set_. repeat keeps_step. Qed.

Lemma keeps_Remove ctx c key : keeps (Remove (Some p) ctx c key).
Proof. unfold Remove. repeat keeps_step. Qed.

Lemma keeps_run_task tk : keeps (run_task p tk).
Proof. unfold run_task. destruct tk; cbv zeta; repeat keeps_step. Qed.

Lemma keeps_act a : keeps (act p a).
Proof.
  destruct a; unfold act.
  - apply keeps_bind; [apply keeps_GetHit|intros; apply keeps_ret].
  - apply keeps_bind; [apply keeps_Set|intros; apply keeps_ret].
  - apply keeps_bind; [apply keeps_Remove|intros; apply keeps_ret].
  - apply keeps_bind; [apply keeps_take_task|].
    intros [tk|]; [apply keeps_run_task|apply keeps_ret].
  - apply keeps_set_clock.
Qed.

Lemma keeps_run l : keeps (run p l).
Proof.
  induction l as [|a l IH]; simpl.
  - apply keeps_ret.
  - apply keeps_bind; [apply keeps_act|intros _; exact IH].
Qed.
(** C10.  Over any run of the process (calls of [GetHit], [Set] and
    [Remove], goroutines run by the scheduler, the clock moving), started
    from a trace whose writes are well stamped (the empty trace is), every
    store write in the trace carries a value with [IsNil] false and [Ctime]
    equal to the reading of the clock at the write.  So when the clock did
    not read the zero time, [Ctime] is not zero and [IsExpire] is decided by
    the comparison of [Ctime] plus the offset with the current time; and when
    redis returns what was written for the value and the codec decodes what
    it encoded, the adaptor reads the value back as found, not marked
    absent. *)
Theorem proxy_writes_stamped (l : list Action) w r w' ev ctx key value e1 e2 :
  trace_ok (w_trace w) = true ->
  run p l w = (r, w') ->
  In ev (w_trace w') ->
  ev_call ev = CallCacheSet ctx key value e1 e2 ->
  IsNil value = false /\
  Ctime value = ev_at ev /\
  (ev_at ev <> 0 ->
   Time_IsZero (Ctime value) = false /\
   forall normalOffset fastOffset now,
     IsExpire value normalOffset fastOffset now = true <->
     Ctime value +
       (if NeedFastRequery value then fastOffset else normalOffset) < now) /\
  (forall (R : Type) (sonic : Sonic) (cl : RedisClient R) ctx' (r0 r1 : R) valStr,
     MarshalString sonic value = (valStr, None) ->
     UnmarshalString sonic valStr = (value, None) ->
     rdb_Get cl ctx' key r0 = ((valStr, None), r1) ->
     RedisCache.Get sonic (RedisCache.NewRedisAdaptor (Some cl)) ctx' key r0 =
       (Ok (value, true, None), r1) /\
     CheckNil value = false).
Proof.
  intros Hok Hrun Hin Hcall.
  pose proof (keeps_run l w r w' Hok Hrun) as Hok'.
  unfold trace_ok in Hok'. rewrite forallb_forall in Hok'.
  specialize (Hok' ev Hin). unfold write_ok in Hok'. rewrite Hcall in Hok'.
  apply andb_true_iff in Hok' as [Hnil Hct].
  apply negb_true_iff in Hnil. apply Z.eqb_eq in Hct.
  split; [exact Hnil|]. split; [exact Hct|]. split.
  - intros Hnz. assert (Hz : Time_IsZero (Ctime value) = false).
    { unfold Time_IsZero. apply Z.eqb_neq. congruence. }
    split; [exact Hz|]. intros normalOffset fastOffset now.
    unfold IsExpire. rewrite Hz. rewrite <- Time_Before_Add_lt.
    destruct (Time_Before _ _); intuition congruence.
  - intros R sonic cl ctx' r0 r1 valStr Hm Hu Hget. split; [|exact Hnil].
    eapply RedisCache_Get_found; eassumption.
Qed.
End Writes.

(** ** The statements on the in-memory collaborators *)

(** C2 at a cold key the origin does not know: the caller gets a panic, not
    the origin's error. *)
Lemma GetHit_origin_error_panics_mem :
  fst (GetHit (Some Mem.proxy) Mem.req (Mem.policy false false) "ghost"
         Mem.getter Mem.cold) = Panic nil_assertion /\
  fst (GetHit (Some Mem.proxy) Mem.req (Mem.policy true false) "ghost"
         Mem.getter Mem.cold) = Panic nil_assertion.
Proof.
  split.
  - apply (GetHit_origin_error_panics Mem.proxy Mem.req (Mem.policy false false)
             "ghost" Mem.getter Mem.cold "" false Mem.no_record
             (w_origin Mem.cold)).
    + discriminate.
    + reflexivity.
    + right. exists StringView_nil, (w_store Mem.cold). reflexivity.
  - apply (GetHit_origin_error_panics Mem.proxy Mem.req (Mem.policy true false)
             "ghost" Mem.getter Mem.cold "" false Mem.no_record
             (w_origin Mem.cold)).
    + discriminate.
    + reflexivity.
    + left. reflexivity.
Defined.

(** C5 at a forced refresh of a key the origin has lost: a panic, the old
    entry still in redis. *)
Lemma GetHit_force_origin_error_mem :
  fst (GetHit (Some Mem.proxy) Mem.req (Mem.policy true false) "k"
         Mem.getter (Mem.orphan 2000)) = Panic nil_assertion /\
  w_store (snd (GetHit (Some Mem.proxy) Mem.req (Mem.policy true false) "k"
                  Mem.getter (Mem.orphan 2000))) = w_store (Mem.orphan 2000).
Proof.
  rewrite (GetHit_force_origin_error Mem.proxy Mem.req (Mem.policy true false)
             "k" Mem.getter (Mem.orphan 2000) "" false Mem.no_record
             (w_origin (Mem.orphan 2000))).
  - split; reflexivity.
  - discriminate.
  - reflexivity.
  - reflexivity.
Defined.

(** C3 at a stale value whose record the origin has lost: the refresh
    goroutine panics and the log stays empty. *)
Lemma run_task_refresh_origin_error_mem :
  fst (run_task Mem.proxy (TaskRefresh (Mem.policy false true) "k" Mem.getter)
         (Mem.orphan Mem.later)) = Panic nil_assertion /\
  w_log (snd (run_task Mem.proxy
                (TaskRefresh (Mem.policy false true) "k" Mem.getter)
                (Mem.orphan Mem.later))) = Some [].
Proof.
  rewrite (run_task_refresh_origin_error Mem.proxy (Mem.policy false true) "k"
             Mem.getter (Mem.orphan Mem.later) "" false Mem.no_record
             (w_origin (Mem.orphan Mem.later))).
  - split; reflexivity.
  - reflexivity.
Defined.

(** The whole scenario of C3: the stale value is served, the scheduler runs
    the refresh, the process panics. *)
Example stale_hit_then_refresh_panics :
  fst (GetHit (Some Mem.proxy) Mem.req (Mem.policy false true) "k" Mem.getter
         (Mem.orphan Mem.later)) = Ok ("old", true, None) /\
  fst (run Mem.proxy
         [ActGetHit Mem.req (Mem.policy false true) "k" Mem.getter; ActRunTask 0]
         (Mem.orphan Mem.later)) = Panic nil_assertion.
Proof. split; vm_compute; reflexivity. Qed.

(** C4 as stated, refuted twice.  A value that the store reports as found is
    served as a hit although it is marked absent, and the origin is not
    asked.  And with the nil package logger a write-back that fails is not
    logged: the goroutine panics in [logger.Error]. *)
Lemma GetHit_marked_absent_is_hit :
  IsNil Mem.marked_value = true /\
  GetHit (Some Mem.proxy) Mem.req (Mem.policy false false) "k" Mem.getter
    Mem.marked =
    (Ok ("x", true, None),
     mkWorld 2000 (w_store Mem.marked) (w_origin Mem.marked) (Some []) []
       [mkEvent 2000 (CallCacheGet Mem.req "k")]) /\
  run_task Mem.proxy (TaskWriteBack (Mem.policy false false) "k" "v" false)
    (Mem.unlogged 1000 (Mem.mkRedis ∅ true) ∅) =
    (Panic nil_logger,
     mkWorld 1000 (Mem.mkRedis ∅ true) ∅ None []
       [mkEvent 1000
          (CallCacheSet Background "k" (mkStringView 1000 false false "v")
             defaultExpiredTime 60000000000)]).
Proof. split; [reflexivity|]. split; vm_compute; reflexivity. Qed.

(** C4 at a cold key: the origin's payload comes back as a miss, the write is
    pending; run while redis is down, the write-back leaves a line in the log
    of a logger that exists, and panics on the nil logger. *)
Lemma GetHit_miss_mem :
  GetHit (Some Mem.proxy) Mem.req (Mem.policy false false) "k" Mem.getter Mem.cold =
    (Ok ("v", false, None),
     mkWorld 1000 (w_store Mem.cold) (w_origin Mem.cold) (Some [])
       [TaskWriteBack (Mem.policy false false) "k" "v" false]
       [mkEvent 1000 (CallCacheGet Mem.req "k");
        mkEvent 1000 (CallOriginGet Mem.req "k")]) /\
  run_task Mem.proxy (TaskWriteBack (Mem.policy false false) "k" "v" false)
    (Mem.world 1000 (Mem.mkRedis ∅ true) ∅) =
    (Ok tt,
     mkWorld 1000 (Mem.mkRedis ∅ true) ∅
       (Some ["cacheProxy setErr:dial tcp: connection refused"]) []
       [mkEvent 1000
          (CallCacheSet Background "k" (mkStringView 1000 false false "v")
             defaultExpiredTime 60000000000)]) /\
  run_task Mem.proxy (TaskWriteBack (Mem.policy false false) "k" "v" false)
    (Mem.unlogged 1000 (Mem.mkRedis ∅ true) ∅) =
    (Panic nil_logger,
     mkWorld 1000 (Mem.mkRedis ∅ true) ∅ None []
       [mkEvent 1000
          (CallCacheSet Background "k" (mkStringView 1000 false false "v")
             defaultExpiredTime 60000000000)]) /\
  fst (GetHit (Some Mem.proxy) Mem.req (Mem.policy false false) "k" Mem.getter
         Mem.marked) = Ok ("x", true, None).
Proof.
  destruct (GetHit_miss Mem.proxy Mem.req (Mem.policy false false) "k" Mem.getter
              Mem.cold StringView_nil (w_store Mem.cold) "v" false
              (w_origin Mem.cold))
    as (Hret & _ & Hlogged & Hnil & _ & Hfound).
  - discriminate.
  - reflexivity.
  - reflexivity.
  - reflexivity.
  - split; [exact Hret|]. split; [|split].
    + exact (Hlogged (Mem.world 1000 (Mem.mkRedis ∅ true) ∅) Mem.refused
               (Mem.mkRedis ∅ true) [] eq_refl eq_refl).
    + exact (Hnil (Mem.unlogged 1000 (Mem.mkRedis ∅ true) ∅) Mem.refused
               (Mem.mkRedis ∅ true) eq_refl eq_refl).
    + exact (Hfound Mem.marked Mem.marked_value (w_store Mem.marked) eq_refl).
Defined.

(** C9 at a value that is stale by the offsets: it is served as it is. *)
Lemma GetHit_hit_no_refresh_mem :
  IsExpire Mem.old_value (RefreshOffset (Mem.policy false false))
    (FastRefreshOffset (Mem.policy false false)) Mem.later = true /\
  GetHit (Some Mem.proxy) Mem.req (Mem.policy false false) "k" Mem.getter
    (Mem.warm Mem.later) =
    (Ok ("old", true, None),
     mkWorld Mem.later (w_store (Mem.warm Mem.later))
       (w_origin (Mem.warm Mem.later)) (Some []) []
       [mkEvent Mem.later (CallCacheGet Mem.req "k")]).
Proof.
  split.
  - reflexivity.
  - apply (GetHit_hit_no_refresh Mem.proxy Mem.req (Mem.policy false false) "k"
             Mem.getter (Mem.warm Mem.later) Mem.old_value
             (w_store (Mem.warm Mem.later))).
    + discriminate.
    + reflexivity.
    + reflexivity.
    + vm_compute. reflexivity.
Defined.

(** C7 on the empty key: [Set] returns [ErrInvalidKey] and redis holds
    nothing afterwards, so the value was not written through. *)
Lemma Set_empty_key_not_written :
  fst (Set_ (Some Mem.proxy) Mem.req (Mem.policy false false) "" "v" Mem.cold) =
    Ok (Some ErrInvalidKey) /\
  Mem.entries
    (w_store (snd (Set_ (Some Mem.proxy) Mem.req (Mem.policy false false) ""
                     "v" Mem.cold))) = ∅.
Proof. split; reflexivity. Qed.

(** C7 at non-empty keys: the empty payload is stored for
    [EmptyExpiredTime], another payload for [ExpiredTime], and removing a key
    redis does not hold returns no error. *)
Lemma Set_Remove_write_through_mem :
  (let '(r, w') :=
     Set_ (Some Mem.proxy) Mem.req (Mem.policy false false) "k" "" Mem.cold in
   r = Ok None /\
   Mem.entries (w_store w') !! "k" =
     Some (Mem.encode (mkStringView 1000 false false ""), 60000000000)) /\
  (let '(r, w') :=
     setData Mem.proxy Background (Mem.policy false false) "k" "v" true Mem.cold in
   r = Ok None /\
   Mem.entries (w_store w') !! "k" =
     Some (Mem.encode (mkStringView 1000 true false "v"), defaultExpiredTime)) /\
  fst (Remove (Some Mem.proxy) Mem.req (Mem.policy false false) "k" Mem.cold) =
    Ok None.
Proof.
  destruct (Set_Remove_write_through Mem.sonic Mem.client Mem.req
              (Mem.policy false false) "k" Mem.cold) as (Hset & Hdata & Hdel).
  - discriminate.
  - split; [|split].
    + change Mem.proxy with (newCacheProxy Mem.sonic (Some Mem.client)).
      rewrite (Hset "" (Mem.encode (mkStringView 1000 false false "")) "OK" None
                 (Mem.mkRedis
                    {[ "k" := (Mem.encode (mkStringView 1000 false false ""),
                               60000000000) ]} false) eq_refl eq_refl).
      split; reflexivity.
    + change Mem.proxy with (newCacheProxy Mem.sonic (Some Mem.client)).
      rewrite (Hdata Background "v" true
                 (Mem.encode (mkStringView 1000 true false "v")) "OK" None
                 (Mem.mkRedis
                    {[ "k" := (Mem.encode (mkStringView 1000 true false "v"),
                               defaultExpiredTime) ]} false) eq_refl eq_refl).
      split; reflexivity.
    + change Mem.proxy with (newCacheProxy Mem.sonic (Some Mem.client)).
      rewrite (Hdel 0 None (Mem.mkRedis ∅ false) eq_refl). reflexivity.
Defined.

(** C8 on [Set] and [Remove]: the empty key comes back as an error. *)
Lemma empty_key_is_an_error :
  fst (Set_ (Some Mem.proxy) Mem.req (Mem.policy false false) "" "v" Mem.cold) =
    Ok (Some ErrInvalidKey) /\
  fst (Remove (Some Mem.proxy) Mem.req (Mem.policy false false) "" Mem.cold) =
    Ok (Some ErrInvalidKey) /\
  Error ErrInvalidKey = "empty key".
Proof. repeat split. Qed.

(** C10 on a run: a miss, its write-back, a later forced refresh.  The two
    writes in the trace carry the clock of their own time. *)
Lemma proxy_writes_stamped_mem :
  let ev :=
    mkEvent 3000
      (CallCacheSet Background "k" (mkStringView 3000 false false "v")
         defaultExpiredTime 60000000000) in
  In ev
    (w_trace
       (snd (run Mem.proxy
               [ActGetHit Mem.req (Mem.policy false false) "k" Mem.getter;
                ActClock 2000; ActRunTask 0; ActClock 3000;
                ActGetHit Mem.req (Mem.policy true false) "k" Mem.getter]
               Mem.cold))) /\
  IsNil (mkStringView 3000 false false "v") = false /\
  Ctime (mkStringView 3000 false false "v") = ev_at ev.
Proof.
  intros ev.
  assert (Hin : In ev
    (w_trace
       (snd (run Mem.proxy
               [ActGetHit Mem.req (Mem.policy false false) "k" Mem.getter;
                ActClock 2000; ActRunTask 0; ActClock 3000;
                ActGetHit Mem.req (Mem.policy true false) "k" Mem.getter]
               Mem.cold)))).
  { vm_compute. right. right. right. right. left. reflexivity. }
  split; [exact Hin|].
  destruct (proxy_writes_stamped Mem.proxy
              [ActGetHit Mem.req (Mem.policy false false) "k" Mem.getter;
               ActClock 2000; ActRunTask 0; ActClock 3000;
               ActGetHit Mem.req (Mem.policy true false) "k" Mem.getter]
              Mem.cold _ _ ev Background "k"
              (mkStringView 3000 false false "v") defaultExpiredTime 60000000000
              eq_refl (surjective_pairing _) Hin eq_refl) as (Hnil & Hct & _).
  split; [exact Hnil|exact Hct].
Defined.

(** A miss, then a hit: once the write-back has run, the second call finds
    the payload in the store. *)
Example miss_then_hit :
  fst (GetHit (Some Mem.proxy) Mem.req (Mem.policy false false) "k" Mem.getter
         Mem.cold) = Ok ("v", false, None) /\
  (let w1 := snd (run Mem.proxy
                    [ActGetHit Mem.req (Mem.policy false false) "k" Mem.getter;
                     ActRunTask 0] Mem.cold) in
   fst (GetHit (Some Mem.proxy) Mem.req (Mem.policy false false) "k" Mem.getter w1)
     = Ok ("v", true, None)).
Proof. split; vm_compute; reflexivity. Qed.

(** [getResource] on a key the origin knows: it returns, and what it returns
    carries no error. *)
Lemma getResource_returns_no_error_mem :
  match fst (getResource Mem.proxy Mem.req "k" Mem.getter Mem.cold) with
  | Ok (_, _, err) => err = None
  | Panic _ => False
  end.
Proof.
  destruct (getResource Mem.proxy Mem.req "k" Mem.getter Mem.cold)
    as [[[[data fast] err]|v] w'] eqn:E; simpl.
  - exact (getResource_returns_no_error Mem.proxy Mem.req "k" Mem.getter
             Mem.cold data fast err w' E).
  - vm_compute in E. discriminate E.
Defined.

(** A forced refresh over a fresh entry: the origin's payload is returned and
    is what redis holds afterwards. *)
Lemma GetHit_force_refresh_mem :
  let '(r, w') :=
    GetHit (Some Mem.proxy) Mem.req (Mem.policy true false) "k" Mem.getter
      (Mem.warm 2000) in
  r = Ok ("new", false, None) /\
  Mem.entries (w_store w') !! "k" =
    Some (Mem.encode (mkStringView 2000 false false "new"), defaultExpiredTime) /\
  w_trace w' =
    [mkEvent 2000 (CallOriginGet Mem.req "k");
     mkEvent 2000
       (CallCacheSet Background "k" (mkStringView 2000 false false "new")
          defaultExpiredTime 60000000000)].
Proof.
  rewrite (GetHit_force_refresh Mem.proxy Mem.req (Mem.policy true false) "k"
             Mem.getter (Mem.warm 2000) "new" false (w_origin (Mem.warm 2000))
             None
             (Mem.mkRedis
                {[ "k" := (Mem.encode (mkStringView 2000 false false "new"),
                           defaultExpiredTime) ]} false)).
  - split; [reflexivity|]. split; reflexivity.
  - discriminate.
  - reflexivity.
  - reflexivity.
  - vm_compute. reflexivity.
Defined.

(** A stale value with [NeedCacheRefresh]: served at once, the refresh
    pending. *)
Lemma GetHit_hit_stale_mem :
  let '(r, w') :=
    GetHit (Some Mem.proxy) Mem.req (Mem.policy false true) "k" Mem.getter
      (Mem.warm Mem.later) in
  r = Ok ("old", true, None) /\
  w_tasks w' = [TaskRefresh (Mem.policy false true) "k" Mem.getter] /\
  w_trace w' = [mkEvent Mem.later (CallCacheGet Mem.req "k")].
Proof.
  rewrite (GetHit_hit_stale Mem.proxy Mem.req (Mem.policy false true) "k"
             Mem.getter (Mem.warm Mem.later) Mem.old_value
             (w_store (Mem.warm Mem.later))).
  - split; [reflexivity|]. split; reflexivity.
  - discriminate.
  - reflexivity.
  - reflexivity.
  - vm_compute. reflexivity.
  - reflexivity.
Defined.

(** The refresh goroutine with redis down: the failed write leaves a line in
    the log of a logger that exists and nothing else; on the nil logger the
    goroutine panics. *)
Lemma run_task_refresh_mem :
  run_task Mem.proxy (TaskRefresh (Mem.policy false true) "k" Mem.getter)
    (Mem.world 5000 (Mem.mkRedis ∅ true) {[ "k" := ("new", true) ]}) =
    (Ok tt,
     mkWorld 5000 (Mem.mkRedis ∅ true) {[ "k" := ("new", true) ]}
       (Some ["cacheProxy refresh setData err:dial tcp: connection refused"]) []
       [mkEvent 5000 (CallOriginGet Background "k");
        mkEvent 5000
          (CallCacheSet Background "k" (mkStringView 5000 true false "new")
             defaultExpiredTime 60000000000)]) /\
  fst (run_task Mem.proxy (TaskRefresh (Mem.policy false true) "k" Mem.getter)
         (Mem.unlogged 5000 (Mem.mkRedis ∅ true) {[ "k" := ("new", true) ]})) =
    Panic nil_logger.
Proof.
  split.
  - exact (proj1 (proj2
             (run_task_refresh Mem.proxy (Mem.policy false true) "k" Mem.getter
                (Mem.world 5000 (Mem.mkRedis ∅ true) {[ "k" := ("new", true) ]})
                "new" true {[ "k" := ("new", true) ]} (Some Mem.refused)
                (Mem.mkRedis ∅ true) eq_refl eq_refl))
             Mem.refused [] eq_refl eq_refl).
  - exact (f_equal fst
             (proj2 (proj2
                (run_task_refresh Mem.proxy (Mem.policy false true) "k"
                   Mem.getter
                   (Mem.unlogged 5000 (Mem.mkRedis ∅ true)
                      {[ "k" := ("new", true) ]})
                   "new" true {[ "k" := ("new", true) ]} (Some Mem.refused)
                   (Mem.mkRedis ∅ true) eq_refl eq_refl))
                Mem.refused eq_refl eq_refl)).
Defined.

(** One second after the write, with a fast offset of one second less a
    nanosecond and the default normal offset. *)
Lemma IsExpire_fast_requery_mem :
  IsExpire (mkStringView 1000 true false "v") defaultRefreshTime 999999999
    1000001000 = true /\
  IsExpire (mkStringView 1000 false false "v") defaultRefreshTime 999999999
    1000001000 = false.
Proof.
  apply (IsExpire_fast_requery 1000 "v" defaultRefreshTime 999999999 1000001000).
  - discriminate.
  - unfold defaultRefreshTime. lia.
Defined.

(** * Further properties *)

Local Open Scope list_scope.

(** ** Removing duplicates from a slice *)

Section Dedup.
Context {T : Type} `{Countable T}.
Implicit Types (slice acc : list T) (seen : gset T).

(** What the loop of [SliceRemoveDuplicates] leaves in [uniqueSlice], without
    the map. *)
Fixpoint dedup_from (acc slice : list T) : list T :=
  match slice with
  | [] => acc
  | item :: rest =>
      if decide (item ∈ acc) then dedup_from acc rest
      else dedup_from (acc ++ [item]) rest
  end.

Lemma foldl_unique_step slice seen acc :
  (forall x, x ∈ seen <-> x ∈ acc) ->
  snd (foldl Util.unique_step (seen, acc) slice) = dedup_from acc slice.
Proof.
  revert seen acc. induction slice as [|item rest IH]; intros seen acc Hseen.
  - reflexivity.
  - simpl. destruct (decide (item ∈ seen)) as [Hin|Hout].
    + rewrite decide_True by (apply Hseen; exact Hin). apply IH, Hseen.
    + rewrite decide_False by (rewrite <- Hseen; exact Hout).
      apply IH. intros x. rewrite elem_of_union, elem_of_singleton, elem_of_app,
        list_elem_of_singleton, Hseen. tauto.
Qed.

Lemma dedup_from_app slice acc :
  exists r, dedup_from acc slice = acc ++ r /\ sublist r slice.
Proof.
  revert acc. induction slice as [|item rest IH]; intros acc; simpl.
  - exists []. split; [by rewrite app_nil_r|constructor].
  - destruct (decide (item ∈ acc)).
    + destruct (IH acc) as (r & -> & Hsub). exists r.
      split; [done|by apply sublist_cons].
    + destruct (IH (acc ++ [item])) as (r & -> & Hsub). exists (item :: r).
      split; [by rewrite <- app_assoc|by apply sublist_skip].
Qed.

Lemma elem_of_dedup_from slice acc x :
  x ∈ dedup_from acc slice <-> x ∈ acc \/ x ∈ slice.
Proof.
  revert acc. induction slice as [|item rest IH]; intros acc; simpl.
  - rewrite elem_of_nil. tauto.
  - destruct (decide (item ∈ acc)) as [Hin|Hout].
    + rewrite IH, elem_of_cons. split; [tauto|].
      intros [?|[->|?]]; tauto.
    + rewrite IH, elem_of_app, list_elem_of_singleton, elem_of_cons. tauto.
Qed.

Lemma NoDup_dedup_from slice acc :
  NoDup acc -> NoDup (dedup_from acc slice).
Proof.
  revert acc. induction slice as [|item rest IH]; intros acc Hacc; simpl.
  - exact Hacc.
  - destruct (decide (item ∈ acc)) as [Hin|Hout]; [by apply IH|].
    apply IH. apply NoDup_app. split; [done|]. split; [|apply NoDup_singleton].
    intros x Hx Hx'. apply list_elem_of_singleton in Hx' as ->. done.
Qed.

Lemma remove_dups_skip (l1 l2 : list T) x :
  x ∈ l2 -> remove_dups (l1 ++ x :: l2) = remove_dups (l1 ++ l2).
Proof.
  intros Hx. induction l1 as [|a l1 IH]; simpl.
  - destruct (decide_rel elem_of x l2); done.
  - rewrite IH.
    destruct (decide_rel elem_of a (l1 ++ x :: l2)) as [Ha|Ha];
      destruct (decide_rel elem_of a (l1 ++ l2)) as [Hb|Hb]; try done.
    + exfalso. apply Hb. rewrite elem_of_app in Ha |- *.
      rewrite elem_of_cons in Ha. destruct Ha as [?|[->|?]]; tauto.
    + exfalso. apply Ha. rewrite elem_of_app in Hb |- *.
      rewrite elem_of_cons. tauto.
Qed.

Lemma remove_dups_NoDup (l : list T) : NoDup l -> remove_dups l = l.
Proof.
  induction 1 as [|x l Hx _ IH]; simpl; [done|].
  destruct (decide_rel elem_of x l); [done|]. by rewrite IH.
Qed.

Lemma NoDup_reverse_2 (l : list T) : NoDup l -> NoDup (reverse l).
Proof. intros Hl. by rewrite reverse_Permutation. Qed.

Lemma reverse_dedup_from slice acc :
  NoDup acc ->
  reverse (dedup_from acc slice) = remove_dups (reverse slice ++ reverse acc).
Proof.
  revert acc. induction slice as [|item rest IH]; intros acc Hacc; simpl.
  - symmetry. apply remove_dups_NoDup. by apply NoDup_reverse_2.
  - rewrite reverse_cons, <- app_assoc. simpl.
    destruct (decide (item ∈ acc)) as [Hin|Hout].
    + rewrite remove_dups_skip by (by apply elem_of_reverse). by apply IH.
    + rewrite IH, reverse_app; [done|].
      apply NoDup_app. split; [done|]. split; [|apply NoDup_singleton].
      intros x Hx Hx'. apply list_elem_of_singleton in Hx' as ->. done.
Qed.

Lemma SliceRemoveDuplicates_dedup_from slice :
  Util.SliceRemoveDuplicates slice = dedup_from [] slice \/
  (length slice <= 1)%nat /\ Util.SliceRemoveDuplicates slice = slice.
Proof.
  unfold Util.SliceRemoveDuplicates.
  destruct (Nat.leb_spec (length slice) 1) as [Hle|Hgt].
  - right. done.
  - left. apply foldl_unique_step. intros x. rewrite elem_of_empty, elem_of_nil.
    tauto.
Qed.

Lemma short_NoDup slice : (length slice <= 1)%nat -> NoDup slice.
Proof.
  destruct slice as [|x [|y rest]]; simpl; intros Hlen.
  - constructor.
  - apply NoDup_singleton.
  - lia.
Qed.

Lemma dedup_from_NoDup_id slice acc :
  NoDup (acc ++ slice) -> dedup_from acc slice = acc ++ slice.
Proof.
  revert acc. induction slice as [|item rest IH]; intros acc Hnd; simpl.
  - by rewrite app_nil_r.
  - apply NoDup_app in Hnd as Hparts. destruct Hparts as (_ & Hdisj & _).
    rewrite decide_False by (intros Hin; eapply Hdisj; [exact Hin|by left]).
    rewrite IH; [by rewrite <- app_assoc|]. by rewrite <- app_assoc.
Qed.

(** [SliceRemoveDuplicates] returns a slice without duplicates that holds
    exactly the elements of its argument, in the order of the argument. *)
Theorem SliceRemoveDuplicates_NoDup slice :
  NoDup (Util.SliceRemoveDuplicates slice) /\
  (forall x, x ∈ Util.SliceRemoveDuplicates slice <-> x ∈ slice) /\
  sublist (Util.SliceRemoveDuplicates slice) slice.
Proof.
  destruct (SliceRemoveDuplicates_dedup_from slice) as [->|[Hlen ->]].
  - split; [apply NoDup_dedup_from; constructor|]. split.
    + intros x. rewrite elem_of_dedup_from, elem_of_nil. tauto.
    + destruct (dedup_from_app slice []) as (r & -> & Hsub). exact Hsub.
  - split; [by apply short_NoDup|]. split; [done|]. reflexivity.
Qed.

(** Of the occurrences of an element [SliceRemoveDuplicates] keeps the first:
    read from the back, its result is the argument read from the back with
    every element that occurs again later taken out. *)
Theorem SliceRemoveDuplicates_keeps_first slice :
  reverse (Util.SliceRemoveDuplicates slice) = remove_dups (reverse slice).
Proof.
  destruct (SliceRemoveDuplicates_dedup_from slice) as [->|[Hlen ->]].
  - rewrite reverse_dedup_from by constructor. by rewrite reverse_nil, app_nil_r.
  - symmetry. apply remove_dups_NoDup, NoDup_reverse_2. by apply short_NoDup.
Qed.

(** A slice without duplicates comes back as it is, so removing duplicates
    twice is removing them once. *)
Theorem SliceRemoveDuplicates_idempotent slice :
  (NoDup slice -> Util.SliceRemoveDuplicates slice = slice) /\
  Util.SliceRemoveDuplicates (Util.SliceRemoveDuplicates slice) =
    Util.SliceRemoveDuplicates slice.
Proof.
  assert (Hid : forall l : list T, NoDup l -> Util.SliceRemoveDuplicates l = l).
  { intros l Hl. destruct (SliceRemoveDuplicates_dedup_from l) as [->|[_ ->]];
      [|done]. by apply (dedup_from_NoDup_id l []). }
  split; [apply Hid|]. apply Hid.
  destruct (SliceRemoveDuplicates_dedup_from slice) as [->|[Hlen ->]].
  - apply NoDup_dedup_from. constructor.
  - by apply short_NoDup.
Qed.
End Dedup.

(** ** Removing duplicates under a comparison function *)

Section DedupBy.
Context {T : Type}.
Variable eq : Util.Comparator (T := T).
Implicit Types (slice acc : list T).

Lemma isDuplicate_true item acc :
  Util.isDuplicate eq item acc = true <->
  exists existing, existing ∈ acc /\ eq item existing = true.
Proof.
  induction acc as [|y acc IH]; simpl.
  - split; [discriminate|]. intros (z & Hz & _). inversion Hz.
  - destruct (eq item y) eqn:Ey.
    + split; [|done]. intros _. exists y. split; [by left|done].
    + rewrite IH. split.
      * intros (z & Hz & Ez). exists z. split; [by right|done].
      * intros (z & Hz & Ez). apply elem_of_cons in Hz as [->|Hz]; [congruence|].
        by exists z.
Qed.

Lemma isDuplicate_false item acc :
  Util.isDuplicate eq item acc = false ->
  forall existing, existing ∈ acc -> eq item existing = false.
Proof.
  intros Hdup y Hy. destruct (eq item y) eqn:Ey; [|done].
  assert (Util.isDuplicate eq item acc = true) as Htrue
    by (apply isDuplicate_true; by exists y).
  congruence.
Qed.

Lemma comparator_loop_app slice acc :
  exists r, foldl (Util.comparator_step eq) acc slice = acc ++ r /\ sublist r slice.
Proof.
  revert acc. induction slice as [|item rest IH]; intros acc; simpl.
  - exists []. split; [by rewrite app_nil_r|constructor].
  - unfold Util.comparator_step at 2.
    destruct (Util.isDuplicate eq item acc); simpl.
    + destruct (IH acc) as (r & -> & Hsub). exists r.
      split; [done|by apply sublist_cons].
    + destruct (IH (acc ++ [item])) as (r & -> & Hsub). exists (item :: r).
      split; [by rewrite <- app_assoc|by apply sublist_skip].
Qed.

(** No element of the result is accepted by [eq] against an element that
    stands before it. *)
Definition later_differs (res : list T) : Prop :=
  forall i j x y, (i < j)%nat -> res !! i = Some x -> res !! j = Some y ->
                  eq y x = false.

Lemma later_differs_snoc acc item :
  later_differs acc -> Util.isDuplicate eq item acc = false ->
  later_differs (acc ++ [item]).
Proof.
  intros Hacc Hdup i j x y Hij Hi Hj.
  assert (j < length (acc ++ [item]))%nat as Hlen by (by eapply lookup_lt_Some).
  rewrite length_app in Hlen. simpl in Hlen.
  destruct (decide (j = length acc)) as [->|Hne].
  - rewrite list_lookup_middle in Hj by done. injection Hj as <-.
    rewrite lookup_app_l in Hi by done.
    eapply isDuplicate_false; [exact Hdup|]. by eapply list_elem_of_lookup_2.
  - rewrite lookup_app_l in Hj by lia. rewrite lookup_app_l in Hi by lia.
    exact (Hacc i j x y Hij Hi Hj).
Qed.

Lemma comparator_loop_differs slice acc :
  later_differs acc -> later_differs (foldl (Util.comparator_step eq) acc slice).
Proof.
  revert acc. induction slice as [|item rest IH]; intros acc Hacc; simpl.
  - exact Hacc.
  - apply IH. unfold Util.comparator_step.
    destruct (Util.isDuplicate eq item acc) eqn:Hdup; simpl; [exact Hacc|].
    by apply later_differs_snoc.
Qed.

Lemma comparator_loop_covers slice acc x :
  x ∈ slice ->
  x ∈ foldl (Util.comparator_step eq) acc slice \/
  exists y, y ∈ foldl (Util.comparator_step eq) acc slice /\ eq x y = true.
Proof.
  revert acc. induction slice as [|item rest IH]; intros acc Hx; simpl.
  - inversion Hx.
  - apply elem_of_cons in Hx as [->|Hx]; [|by apply IH].
    destruct (comparator_loop_app rest (Util.comparator_step eq acc item))
      as (r & -> & _).
    unfold Util.comparator_step.
    destruct (Util.isDuplicate eq item acc) eqn:Hdup; simpl.
    + right. apply isDuplicate_true in Hdup as (y & Hy & Ey).
      exists y. split; [|done]. apply elem_of_app. by left.
    + left. rewrite !elem_of_app, list_elem_of_singleton. tauto.
Qed.

(** [UniqueWithComparator], for any comparison function: the result is the
    argument with some elements left out, in the same order; an element of
    the result is never accepted by [eq] against an element that stands
    before it; and every element of the argument is in the result or is
    accepted by [eq] against an element of the result. *)
Theorem UniqueWithComparator_spec slice :
  sublist (Util.UniqueWithComparator slice eq) slice /\
  (forall i j x y,
     (i < j)%nat ->
     Util.UniqueWithComparator slice eq !! i = Some x ->
     Util.UniqueWithComparator slice eq !! j = Some y ->
     eq y x = false) /\
  (forall x, x ∈ slice ->
     x ∈ Util.UniqueWithComparator slice eq \/
     exists y, y ∈ Util.UniqueWithComparator slice eq /\ eq x y = true).
Proof.
  unfold Util.UniqueWithComparator.
  destruct (Nat.leb_spec (length slice) 1) as [Hle|Hgt].
  - split; [reflexivity|]. split; [|by left].
    intros i j x y Hij Hi Hj. apply lookup_lt_Some in Hj. lia.
  - split.
    + destruct (comparator_loop_app slice []) as (r & -> & Hsub). exact Hsub.
    + split.
      * apply (comparator_loop_differs slice []).
        intros i j x y _ Hi. inversion Hi.
      * intros x Hx. by apply comparator_loop_covers.
Qed.
End DedupBy.

(** With a comparison function that decides equality,
    [UniqueWithComparator] is [SliceRemoveDuplicates]. *)
Theorem UniqueWithComparator_equality {T : Type} `{Countable T}
    (eq : Util.Comparator (T := T)) (slice : list T) :
  (forall a b, eq a b = true <-> a = b) ->
  Util.UniqueWithComparator slice eq = Util.SliceRemoveDuplicates slice.
Proof.
  intros Heq.
  assert (Hloop : forall l acc,
            foldl (Util.comparator_step eq) acc l = dedup_from acc l).
  { induction l as [|item rest IH]; intros acc; simpl; [done|].
    unfold Util.comparator_step at 2.
    destruct (decide (item ∈ acc)) as [Hin|Hout].
    - replace (Util.isDuplicate eq item acc) with true; [apply IH|].
      symmetry. apply isDuplicate_true. exists item. split; [done|by apply Heq].
    - replace (Util.isDuplicate eq item acc) with false; [apply IH|].
      symmetry. apply not_true_is_false. intros Hdup.
      apply isDuplicate_true in Hdup as (y & Hy & Ey). apply Heq in Ey as ->.
      done. }
  destruct (SliceRemoveDuplicates_dedup_from slice) as [->|[Hlen ->]].
  - unfold Util.UniqueWithComparator.
    destruct (Nat.leb_spec (length slice) 1) as [Hle|Hgt]; [|apply Hloop].
    symmetry. apply (dedup_from_NoDup_id slice []). by apply short_NoDup.
  - unfold Util.UniqueWithComparator.
    destruct (Nat.leb_spec (length slice) 1) as [Hle|Hgt]; [done|lia].
Qed.

(** On a slice of numbers compared with [Nat.eqb]. *)
Lemma UniqueWithComparator_equality_nat :
  Util.UniqueWithComparator [3; 1; 3; 2; 1]%nat Nat.eqb = [3; 1; 2]%nat /\
  Util.SliceRemoveDuplicates [3; 1; 3; 2; 1]%nat = [3; 1; 2]%nat.
Proof.
  rewrite (UniqueWithComparator_equality Nat.eqb [3; 1; 3; 2; 1]%nat Nat.eqb_eq).
  split; reflexivity.
Defined.

(** ** The exported methods over several calls *)

Ltac use_hyp :=
  match goal with
  | H : ?l = _ |- context [?l] => rewrite H
  end.

Ltac proxy_eval :=
  unfold run, act, take_task, set_clock, GetHit, Set_, Remove, run_task, setData,
    cache_Get, cache_Set, cache_Remove, go, record, on_store, logger_Error,
    time_Now, bind, ret, panic;
  repeat first
    [ progress cbn -[IsExpire lookup delete getResource]
    | use_hyp
    | rewrite list_lookup_middle by reflexivity
    | rewrite delete_middle
    | erewrite getResource_ok by (cbn; eassumption)
    | erewrite getResource_err by (cbn; eassumption) ].

(** A value is not stale at the time it is written, for an offset that is not
    negative. *)
Lemma IsExpire_at_write (now : Time) (fast : bool) (data : string) (normalOffset fastOffset : Duration) :
  0 <= (if fast then fastOffset else normalOffset) ->
  IsExpire (mkStringView now fast false data) normalOffset fastOffset now = false.
Proof.
  intros Hoff. unfold IsExpire, Time_IsZero, Time_Before, Time_Add. simpl.
  destruct (now =? 0); [done|].
  destruct fast; match goal with |- context [?a <? ?b] => destruct (Z.ltb_spec a b) end; done || lia.
Qed.

Section Compose.
Context {S G : Type}.
Variable p : CacheProxy.t (S := S).
Implicit Types (w : World (S := S) (G := G)) (getter : SingleGetter G).


Ltac split_match :=
  match goal with
  | |- context [match ?x with _ => _ end] =>
      lazymatch x with
      | context [match _ with _ => _ end] => fail
      | _ => destruct x eqn:?
      end
  | H : context [match ?x with _ => _ end] |- _ =>
      lazymatch x with
      | context [match _ with _ => _ end] => fail
      | _ => destruct x eqn:?
      end
  end.

(** What [GetHit] can return.  With an error the payload is empty and the
    hit flag is false.  The hit flag is true only without [NeedForceRefresh],
    when the store read found a value, and the payload is then the stored
    one.  An error that is returned is the store's: the error of the write
    under [NeedForceRefresh], the error of the read otherwise; the origin's
    error is never returned. *)
Theorem GetHit_result ctx c key getter w payload hit err :
  fst (GetHit (Some p) ctx c key getter w) = Ok (payload, hit, err) ->
  (err <> None -> payload = "" /\ hit = false) /\
  (hit = true ->
   NeedForceRefresh c = false /\
   exists sv s', Cache_Get (cache p) ctx key (w_store w) = (Ok (sv, true, None), s') /\
                 payload = Data sv) /\
  (forall e, err = Some e ->
     if NeedForceRefresh c then
       exists data fast s',
         Cache_Set (cache p) Background key (mkStringView (w_now w) fast false data)
           (ExpiredTime c) (EmptyExpiredTime c) (w_store w) = (Ok (Some e), s')
     else
       exists sv found s',
         Cache_Get (cache p) ctx key (w_store w) = (Ok (sv, found, Some e), s')).
Proof.
  proxy_unfold. cbn -[IsExpire]. intros Hres.
  repeat (split_match; cbn -[IsExpire] in *; simplify_eq).
  all: split; [intros; try done|split; [intros; try done|intros; simplify_eq]].
  all: repeat match goal with b : bool |- _ => destruct b end; simpl in *;
    try discriminate; eauto 10.
Qed.

(** The calls one [GetHit] can make, in order. *)
Definition GetHit_shape (ctx : context) (key : string) (calls : list Call) : Prop :=
  calls = [] \/
  calls = [CallCacheGet ctx key] \/
  calls = [CallCacheGet ctx key; CallOriginGet ctx key] \/
  calls = [CallOriginGet ctx key] \/
  exists value expiredTime emptyExpiredTime,
    calls = [CallOriginGet ctx key;
             CallCacheSet Background key value expiredTime emptyExpiredTime].

Ltac trace_ext :=
  first
    [ exists []; split; [symmetry; apply app_nil_r|]
    | eexists [_]; split; [reflexivity|]
    | eexists [_; _]; split; [rewrite <- app_assoc; reflexivity|] ].

(** One [GetHit] makes at most one store read and at most one origin call;
    it writes the store only after an origin call, under
    [context.Background()]; it never removes a key.  With
    [NeedForceRefresh] it does not read the store, without it does not write
    the store. *)
Theorem GetHit_calls ctx c key getter w :
  exists new,
    w_trace (snd (GetHit (Some p) ctx c key getter w)) = w_trace w ++ new /\
    GetHit_shape ctx key (map ev_call new) /\
    (NeedForceRefresh c = true -> CallCacheGet ctx key ∉ map ev_call new) /\
    (NeedForceRefresh c = false ->
     forall ctx' key' value e1 e2, CallCacheSet ctx' key' value e1 e2 ∉ map ev_call new).
Proof.
  proxy_unfold. cbn -[IsExpire].
  repeat (split_match; cbn -[IsExpire] in *; simplify_eq).
  all: trace_ext; unfold GetHit_shape; simpl.
  all: split; [naive_solver|split; intros; try discriminate].
  all: intros Hin; repeat (apply elem_of_cons in Hin as [Hin|Hin]; [discriminate|]).
  all: by apply elem_of_nil in Hin.
Qed.

(** [GetHit] does not log and does not touch the clock; it starts at most one
    goroutine, and none with [NeedForceRefresh]: the write-back of what it
    just fetched, or the refresh of the key it was asked for. *)
Theorem GetHit_frame ctx c key getter w :
  let w' := snd (GetHit (Some p) ctx c key getter w) in
  w_now w' = w_now w /\
  w_log w' = w_log w /\
  (w_tasks w' = w_tasks w \/
   NeedForceRefresh c = false /\
   ((exists data fast, w_tasks w' = w_tasks w ++ [TaskWriteBack c key data fast]) \/
    w_tasks w' = w_tasks w ++ [TaskRefresh c key getter])).
Proof.
  proxy_unfold. cbn -[IsExpire].
  repeat (split_match; cbn -[IsExpire] in *; simplify_eq).
  all: split; [reflexivity|split; [reflexivity|]].
  all: first
         [ left; reflexivity
         | right; split; [reflexivity|];
           first [ left; eexists _, _; reflexivity | right; reflexivity ] ].
Qed.

(** Write, then read at any later clock reading [t2].  After [Set]
    succeeded, a store that returns what was written makes [GetHit] a hit
    with the payload that was set, also the empty one, and the origin is not
    asked by the call.  A refresh goroutine is started exactly when the
    policy has [NeedCacheRefresh] and the value, stamped at the time of the
    write, is stale at [t2] by the offsets of the reading policy; otherwise
    none is. *)
Theorem Set_then_GetHit ctx ctx' c c' key value getter w s1 s2 (t2 : Time) :
  key <> "" ->
  NeedForceRefresh c' = false ->
  Cache_Set (cache p) ctx key (mkStringView (w_now w) false false value)
    (ExpiredTime c) (EmptyExpiredTime c) (w_store w) = (Ok None, s1) ->
  Cache_Get (cache p) ctx' key s1 =
    (Ok (mkStringView (w_now w) false false value, true, None), s2) ->
  bind (run p [ActSet ctx c key value; ActClock t2])
       (fun _ => GetHit (Some p) ctx' c' key getter) w =
    (Ok (value, true, None),
     mkWorld t2 s2 (w_origin w) (w_log w)
       (w_tasks w ++
        (if NeedCacheRefresh c' &&
            IsExpire (mkStringView (w_now w) false false value)
              (RefreshOffset c') (FastRefreshOffset c') t2
         then [TaskRefresh c' key getter] else []))
       (w_trace w ++
        [mkEvent (w_now w)
           (CallCacheSet ctx key (mkStringView (w_now w) false false value)
              (ExpiredTime c) (EmptyExpiredTime c));
         mkEvent t2 (CallCacheGet ctx' key)])).
Proof.
  intros Hk Hf Hset Hget.
  pose proof (nonempty_length key Hk) as Hlen.
  proxy_eval. destruct (NeedCacheRefresh c'); proxy_eval.
  - destruct (IsExpire _ _ _ t2); proxy_eval;
      rewrite <- ?app_assoc, ?app_nil_r; reflexivity.
  - rewrite <- ?app_assoc, ?app_nil_r; reflexivity.
Qed.

(** Miss, then hit.  After a miss whose write-back has run and succeeded, a
    store that returns what was written makes the next [GetHit] a hit with
    the same payload, as long as the value is not stale; over the two calls
    the origin was asked once. *)
Theorem miss_write_back_hit ctx c key getter w sv0 s1 data fast g1 s2 s3 t1 t2 :
  key <> "" ->
  NeedForceRefresh c = false ->
  Cache_Get (cache p) ctx key (w_store w) = (Ok (sv0, false, None), s1) ->
  getter ctx key (w_origin w) = ((data, fast, None), g1) ->
  Cache_Set (cache p) Background key (mkStringView t1 fast false data)
    (ExpiredTime c) (EmptyExpiredTime c) s1 = (Ok None, s2) ->
  Cache_Get (cache p) ctx key s2 =
    (Ok (mkStringView t1 fast false data, true, None), s3) ->
  (NeedCacheRefresh c = true ->
   IsExpire (mkStringView t1 fast false data) (RefreshOffset c)
     (FastRefreshOffset c) t2 = false) ->
  fst (GetHit (Some p) ctx c key getter w) = Ok (data, false, None) /\
  bind (run p [ActGetHit ctx c key getter; ActClock t1;
               ActRunTask (length (w_tasks w)); ActClock t2])
       (fun _ => GetHit (Some p) ctx c key getter) w =
    (Ok (data, true, None),
     mkWorld t2 s3 g1 (w_log w) (w_tasks w)
       (w_trace w ++
        [mkEvent (w_now w) (CallCacheGet ctx key);
         mkEvent (w_now w) (CallOriginGet ctx key);
         mkEvent t1
           (CallCacheSet Background key (mkStringView t1 fast false data)
              (ExpiredTime c) (EmptyExpiredTime c));
         mkEvent t2 (CallCacheGet ctx key)])).
Proof.
  intros Hk Hf Hget Hg Hset Hget' Hfresh.
  pose proof (nonempty_length key Hk) as Hlen.
  split.
  - proxy_eval. reflexivity.
  - proxy_eval. destruct (NeedCacheRefresh c);
      [specialize (Hfresh eq_refl)|clear Hfresh];
      proxy_eval; rewrite <- ?app_assoc, ?app_nil_r; reflexivity.
Qed.

(** Stale while revalidate.  A stale value is served as a hit; once the
    refresh goroutine has run and its write succeeded, a store that returns
    what was written makes the next [GetHit] a hit with the origin's new
    payload, and no second refresh is started. *)
Theorem stale_refresh_then_new ctx c key getter w sv s1 data fast g1 s2 s3 t1 t2 :
  key <> "" ->
  NeedForceRefresh c = false ->
  NeedCacheRefresh c = true ->
  Cache_Get (cache p) ctx key (w_store w) = (Ok (sv, true, None), s1) ->
  IsExpire sv (RefreshOffset c) (FastRefreshOffset c) (w_now w) = true ->
  getter Background key (w_origin w) = ((data, fast, None), g1) ->
  Cache_Set (cache p) Background key (mkStringView t1 fast false data)
    (ExpiredTime c) (EmptyExpiredTime c) s1 = (Ok None, s2) ->
  Cache_Get (cache p) ctx key s2 =
    (Ok (mkStringView t1 fast false data, true, None), s3) ->
  IsExpire (mkStringView t1 fast false data) (RefreshOffset c)
    (FastRefreshOffset c) t2 = false ->
  fst (GetHit (Some p) ctx c key getter w) = Ok (Data sv, true, None) /\
  bind (run p [ActGetHit ctx c key getter; ActClock t1;
               ActRunTask (length (w_tasks w)); ActClock t2])
       (fun _ => GetHit (Some p) ctx c key getter) w =
    (Ok (data, true, None),
     mkWorld t2 s3 g1 (w_log w) (w_tasks w)
       (w_trace w ++
        [mkEvent (w_now w) (CallCacheGet ctx key);
         mkEvent t1 (CallOriginGet Background key);
         mkEvent t1
           (CallCacheSet Background key (mkStringView t1 fast false data)
              (ExpiredTime c) (EmptyExpiredTime c));
         mkEvent t2 (CallCacheGet ctx key)])).
Proof.
  intros Hk Hf Hr Hget Hstale Hg Hset Hget' Hfresh.
  pose proof (nonempty_length key Hk) as Hlen.
  split.
  - proxy_eval. reflexivity.
  - proxy_eval. rewrite <- ?app_assoc, ?app_nil_r. reflexivity.
Qed.

(** Stale while revalidate, with an origin that fails: the stale value is
    served, and the run of the refresh goroutine ends the process in the
    panic of [getResource]; the store and the log are as they were. *)
Theorem stale_refresh_origin_error ctx c key getter w sv s1 data fast e g1 :
  key <> "" ->
  NeedForceRefresh c = false ->
  NeedCacheRefresh c = true ->
  Cache_Get (cache p) ctx key (w_store w) = (Ok (sv, true, None), s1) ->
  IsExpire sv (RefreshOffset c) (FastRefreshOffset c) (w_now w) = true ->
  getter Background key (w_origin w) = ((data, fast, Some e), g1) ->
  fst (GetHit (Some p) ctx c key getter w) = Ok (Data sv, true, None) /\
  run p [ActGetHit ctx c key getter; ActRunTask (length (w_tasks w))] w =
    (Panic nil_assertion,
     mkWorld (w_now w) s1 g1 (w_log w) (w_tasks w)
       (w_trace w ++
        [mkEvent (w_now w) (CallCacheGet ctx key);
         mkEvent (w_now w) (CallOriginGet Background key)])).
Proof.
  intros Hk Hf Hr Hget Hstale Hg.
  pose proof (nonempty_length key Hk) as Hlen.
  split.
  - proxy_eval. reflexivity.
  - proxy_eval. rewrite <- ?app_assoc, ?app_nil_r. reflexivity.
Qed.

(** The flag of the origin decides when the value is refreshed.  A value
    fetched on a miss and written back at [t1] is read again at a time when
    [FastRefreshOffset] has elapsed and [RefreshOffset] has not: the read is
    a hit, and it starts a refresh exactly when the origin had set
    [needFastRequery]. *)
Theorem fast_requery_flag_shortens ctx c key getter w sv0 s1 data fast g1 s2 s3 t1 t2 :
  key <> "" ->
  NeedForceRefresh c = false ->
  NeedCacheRefresh c = true ->
  Cache_Get (cache p) ctx key (w_store w) = (Ok (sv0, false, None), s1) ->
  getter ctx key (w_origin w) = ((data, fast, None), g1) ->
  Cache_Set (cache p) Background key (mkStringView t1 fast false data)
    (ExpiredTime c) (EmptyExpiredTime c) s1 = (Ok None, s2) ->
  Cache_Get (cache p) ctx key s2 =
    (Ok (mkStringView t1 fast false data, true, None), s3) ->
  t1 <> 0 ->
  t1 + FastRefreshOffset c < t2 <= t1 + RefreshOffset c ->
  bind (run p [ActGetHit ctx c key getter; ActClock t1;
               ActRunTask (length (w_tasks w)); ActClock t2])
       (fun _ => GetHit (Some p) ctx c key getter) w =
    (Ok (data, true, None),
     mkWorld t2 s3 g1 (w_log w)
       (w_tasks w ++ (if fast then [TaskRefresh c key getter] else []))
       (w_trace w ++
        [mkEvent (w_now w) (CallCacheGet ctx key);
         mkEvent (w_now w) (CallOriginGet ctx key);
         mkEvent t1
           (CallCacheSet Background key (mkStringView t1 fast false data)
              (ExpiredTime c) (EmptyExpiredTime c));
         mkEvent t2 (CallCacheGet ctx key)])).
Proof.
  intros Hk Hf Hr Hget Hg Hset Hget' Ht1 [Hfast Hnormal].
  pose proof (nonempty_length key Hk) as Hlen.
  assert (Hstale : IsExpire (mkStringView t1 fast false data) (RefreshOffset c)
                     (FastRefreshOffset c) t2 = fast).
  { unfold IsExpire, Time_IsZero, Time_Before, Time_Add. simpl.
    destruct (Z.eqb_spec t1 0); [contradiction|].
    destruct fast;
      match goal with |- context [?a <? ?b] => destruct (Z.ltb_spec a b) end;
      done || lia. }
  proxy_eval. destruct fast; proxy_eval; rewrite <- ?app_assoc, ?app_nil_r;
    reflexivity.
Qed.
End Compose.

(** ** The redis adaptor over several calls *)

Lemma length_not_negative (key : string) :
  (Z.of_nat (String.length key) <? 0) = false.
Proof. apply Z.ltb_ge. lia. Qed.

Lemma errors_Is_refl (e : error) : errors_Is e e = true.
Proof. unfold errors_Is. by apply bool_decide_eq_true_2. Qed.

Ltac redis_eval :=
  unfold newCacheProxy, RedisCache.as_Cache, RedisCache.NewRedisAdaptor;
  proxy_eval;
  unfold RedisCache.Get, RedisCache.Set_, RedisCache.Remove;
  repeat first
    [ progress cbn -[IsExpire lookup delete getResource]
    | rewrite length_not_negative
    | rewrite errors_Is_refl
    | rewrite empty_data_length
    | use_hyp
    | erewrite getResource_ok by (cbn; eassumption)
    | erewrite getResource_err by (cbn; eassumption) ].

Section RedisMore.
Context {R G : Type}.
Variables (sonic : Sonic) (cl : RedisClient R).
Implicit Types (w : World (S := R) (G := G)) (getter : SingleGetter G).

(** What [Set] wrote, [Get] reads: for a non-empty key, a codec that decodes
    what it encoded and a redis that returns what it was given, [Get] after
    [Set] reports the value as found, without error. *)
Theorem RedisCache_Set_then_Get ctx ctx' key value expiredTime emptyExpiredTime
    (r r1 r2 : R) valStr reply :
  key <> "" ->
  MarshalString sonic value = (valStr, None) ->
  UnmarshalString sonic valStr = (value, None) ->
  rdb_Set cl ctx key valStr
    (if bool_decide (Data value = "") then emptyExpiredTime else expiredTime) r =
    ((reply, None), r1) ->
  rdb_Get cl ctx' key r1 = ((valStr, None), r2) ->
  RedisCache.Set_ sonic (RedisCache.NewRedisAdaptor (Some cl)) ctx key value
    expiredTime emptyExpiredTime r = (Ok None, r1) /\
  RedisCache.Get sonic (RedisCache.NewRedisAdaptor (Some cl)) ctx' key r1 =
    (Ok (value, true, None), r2).
Proof.
  intros Hk Hm Hu Hset Hget.
  pose proof (nonempty_length_le key Hk) as Hlen.
  split; redis_eval; reflexivity.
Qed.

(** After [Remove], when redis no longer holds the key, [GetHit] is a miss:
    the origin is asked and its payload returned, with a write-back
    pending. *)
Theorem Remove_then_GetHit ctx ctx' c c' key getter w n r1 reply r2 data fast g1 :
  key <> "" ->
  NeedForceRefresh c' = false ->
  rdb_Del cl ctx key (w_store w) = ((n, None), r1) ->
  rdb_Get cl ctx' key r1 = ((reply, Some redis_Nil), r2) ->
  getter ctx' key (w_origin w) = ((data, fast, None), g1) ->
  bind (Remove (Some (newCacheProxy sonic (Some cl))) ctx c key)
       (fun _ => GetHit (Some (newCacheProxy sonic (Some cl))) ctx' c' key getter) w =
    (Ok (data, false, None),
     mkWorld (w_now w) r2 g1 (w_log w)
       (w_tasks w ++ [TaskWriteBack c' key data fast])
       (w_trace w ++
        [mkEvent (w_now w) (CallCacheRemove ctx key);
         mkEvent (w_now w) (CallCacheGet ctx' key);
         mkEvent (w_now w) (CallOriginGet ctx' key)])).
Proof.
  intros Hk Hf Hdel Hget Hg.
  pose proof (nonempty_length key Hk) as Hlen.
  pose proof (nonempty_length_le key Hk) as Hlen'.
  redis_eval. rewrite <- ?app_assoc. reflexivity.
Qed.

(** No fallback to the origin.  When redis answers the read with an error
    other than [redis.Nil], or with text that the codec cannot decode,
    [GetHit] returns that error; the origin is not asked, nothing is written
    and no goroutine is started, so an entry that cannot be decoded stays
    where it is. *)
Theorem GetHit_store_failure ctx c key getter w result rerr r1 e :
  key <> "" ->
  NeedForceRefresh c = false ->
  rdb_Get cl ctx key (w_store w) = ((result, rerr), r1) ->
  (rerr = Some e /\ e <> redis_Nil) \/
  (rerr = None /\ snd (UnmarshalString sonic result) = Some e) ->
  GetHit (Some (newCacheProxy sonic (Some cl))) ctx c key getter w =
    (Ok ("", false, Some e),
     mkWorld (w_now w) r1 (w_origin w) (w_log w) (w_tasks w)
       (w_trace w ++ [mkEvent (w_now w) (CallCacheGet ctx key)])).
Proof.
  intros Hk Hf Hget Hfail.
  pose proof (nonempty_length key Hk) as Hlen.
  redis_eval. destruct Hfail as [[-> Hne]|[-> Hdec]].
  - unfold errors_Is. rewrite bool_decide_eq_false_2 by done. reflexivity.
  - destruct (UnmarshalString sonic result) as [sv err]. simpl in Hdec.
    subst err. reflexivity.
Qed.

(** [Get] has no working guard on the key: its test [len(key) < 0] never
    holds, so for every key, the empty one included, the command goes to
    redis, and [Get] returns [ErrInvalidKey] only if redis or the codec
    produced it. *)
Theorem RedisCache_Get_asks_redis ctx key (r : R) :
  snd (RedisCache.Get sonic (RedisCache.NewRedisAdaptor (Some cl)) ctx key r) =
    snd (rdb_Get cl ctx key r) /\
  (snd (fst (rdb_Get cl ctx key r)) <> Some ErrInvalidKey ->
   snd (UnmarshalString sonic (fst (fst (rdb_Get cl ctx key r)))) <> Some ErrInvalidKey ->
   forall sv found,
     fst (RedisCache.Get sonic (RedisCache.NewRedisAdaptor (Some cl)) ctx key r) <>
       Ok (sv, found, Some ErrInvalidKey)).
Proof.
  unfold RedisCache.Get. simpl. rewrite length_not_negative.
  destruct (rdb_Get cl ctx key r) as [[result [e|]] r1]; simpl.
  - destruct (errors_Is e redis_Nil); simpl; split; try done; congruence.
  - destruct (UnmarshalString sonic result) as [sv [e|]]; simpl; split; try done;
      congruence.
Qed.

(** The three results of [Get] agree with each other: a value reported as
    found comes without error; a value reported as not found without error is
    [StringView{IsNil: true}]; an error comes with not found and with
    [StringView{}] or [StringView{IsNil: true}]. *)
Theorem RedisCache_Get_consistent ctx key (r : R) sv found err :
  fst (RedisCache.Get sonic (RedisCache.NewRedisAdaptor (Some cl)) ctx key r) =
    Ok (sv, found, err) ->
  (found = true -> err = None) /\
  (found = false -> err = None -> sv = StringView_nil) /\
  (err <> None -> found = false /\ (sv = StringView_zero \/ sv = StringView_nil)).
Proof.
  unfold RedisCache.Get. simpl. rewrite length_not_negative.
  destruct (rdb_Get cl ctx key r) as [[result [e|]] r1]; simpl.
  - destruct (errors_Is e redis_Nil); simpl; intros [= <- <- <-];
      repeat split; try done; auto.
  - destruct (UnmarshalString sonic result) as [sv' [e|]]; simpl;
      intros [= <- <- <-]; repeat split; try done; auto.
Qed.

(** A proxy built on a nil redis client.  [Set] and [Remove] panic for every
    key, the empty one included, since the adaptor tests the client before
    the key.  [GetHit] on a non-empty key panics at the store read, before
    the origin is asked; with [NeedForceRefresh] it panics at the store
    write, after the origin has been asked. *)
Theorem nil_client_panics ctx c key value getter w :
  let px := Some (newCacheProxy (R := R) sonic None) in
  Set_ px ctx c key value w =
    (Panic "empty redis client",
     mkWorld (w_now w) (w_store w) (w_origin w) (w_log w) (w_tasks w)
       (w_trace w ++
        [mkEvent (w_now w)
           (CallCacheSet ctx key (mkStringView (w_now w) false false value)
              (ExpiredTime c) (EmptyExpiredTime c))])) /\
  Remove px ctx c key w =
    (Panic "empty redis client",
     mkWorld (w_now w) (w_store w) (w_origin w) (w_log w) (w_tasks w)
       (w_trace w ++ [mkEvent (w_now w) (CallCacheRemove ctx key)])) /\
  (key <> "" -> NeedForceRefresh c = false ->
   GetHit px ctx c key getter w =
     (Panic "empty redis client",
      mkWorld (w_now w) (w_store w) (w_origin w) (w_log w) (w_tasks w)
        (w_trace w ++ [mkEvent (w_now w) (CallCacheGet ctx key)]))) /\
  (key <> "" -> NeedForceRefresh c = true ->
   forall data fast g1,
     getter ctx key (w_origin w) = ((data, fast, None), g1) ->
     fst (GetHit px ctx c key getter w) = Panic "empty redis client" /\
     w_origin (snd (GetHit px ctx c key getter w)) = g1).
Proof.
  cbv zeta. split; [reflexivity|]. split; [reflexivity|]. split.
  - intros Hk Hf. pose proof (nonempty_length key Hk) as Hlen.
    redis_eval. reflexivity.
  - intros Hk Hf data fast g1 Hg. pose proof (nonempty_length key Hk) as Hlen.
    redis_eval. split; reflexivity.
Qed.
End RedisMore.

(** ** Staleness over time *)

(** A stale value stays stale: later, and under smaller offsets. *)
Theorem IsExpire_monotone (v : StringView) (normalOffset fastOffset : Duration)
    (normalOffset' fastOffset' : Duration) (now now' : Time) :
  now <= now' ->
  normalOffset' <= normalOffset ->
  fastOffset' <= fastOffset ->
  IsExpire v normalOffset fastOffset now = true ->
  IsExpire v normalOffset' fastOffset' now' = true.
Proof.
  unfold IsExpire, Time_IsZero, Time_Before, Time_Add.
  intros Hnow Hn Hf. destruct (Ctime v =? 0); [done|].
  destruct (NeedFastRequery v);
    repeat match goal with |- context [?a <? ?b] => destruct (Z.ltb_spec a b) end;
    done || lia.
Qed.


(** ** The further statements on the in-memory collaborators *)

(** A hit on the stored value: the flag is true and the payload is the
    stored one. *)
Lemma GetHit_result_mem :
  NeedForceRefresh (Mem.policy false false) = false /\
  exists sv s',
    Cache_Get (cache Mem.proxy) Mem.req "k" (w_store (Mem.warm 2000)) =
      (Ok (sv, true, None), s') /\
    "old" = Data sv.
Proof.
  exact (proj1 (proj2 (GetHit_result Mem.proxy Mem.req (Mem.policy false false)
                         "k" Mem.getter (Mem.warm 2000) "old" true None eq_refl))
           eq_refl).
Defined.

(** The empty payload, once set, is served as a hit; read after the refresh
    offset has passed, the hit starts the refresh. *)
Lemma Set_then_GetHit_mem :
  let w' :=
    bind (run Mem.proxy [ActSet Mem.req (Mem.policy false false) "k" "";
                         ActClock Mem.later])
         (fun _ => GetHit (Some Mem.proxy) Mem.req (Mem.policy false true) "k"
                     Mem.getter) Mem.cold in
  fst w' = Ok ("", true, None) /\
  w_tasks (snd w') = [TaskRefresh (Mem.policy false true) "k" Mem.getter].
Proof.
  unshelve refine
    (let H := Set_then_GetHit Mem.proxy Mem.req Mem.req (Mem.policy false false)
                (Mem.policy false true) "k" "" Mem.getter Mem.cold _ _
                Mem.later _ _ _ _ in _);
    [shelve|shelve| | | | |].
  - discriminate.
  - reflexivity.
  - reflexivity.
  - reflexivity.
  - split.
    + exact (f_equal fst H).
    + exact (f_equal (fun r => w_tasks (snd r)) H).
Defined.

(** A cold key: the second call is a hit. *)
Lemma miss_write_back_hit_mem :
  fst (bind (run Mem.proxy
               [ActGetHit Mem.req (Mem.policy false true) "k" Mem.getter;
                ActClock 2000; ActRunTask 0; ActClock 3000])
            (fun _ => GetHit (Some Mem.proxy) Mem.req (Mem.policy false true) "k"
                        Mem.getter) Mem.cold) = Ok ("v", true, None).
Proof.
  unshelve refine
    (let H := miss_write_back_hit Mem.proxy Mem.req (Mem.policy false true)
                "k" Mem.getter Mem.cold _ _ _ _ _ _ _ 2000 3000
                _ _ _ _ _ _ _ in _);
    [shelve|shelve|shelve|shelve|shelve|shelve|shelve| | | | | | | |].
  - discriminate.
  - reflexivity.
  - reflexivity.
  - reflexivity.
  - reflexivity.
  - reflexivity.
  - reflexivity.
  - exact (f_equal fst (proj2 H)).
Defined.

(** A stale value and an origin that answers: the old payload first, the new
    one after the refresh. *)
Lemma stale_refresh_then_new_mem :
  fst (GetHit (Some Mem.proxy) Mem.req (Mem.policy false true) "k" Mem.getter
         (Mem.warm Mem.later)) = Ok ("old", true, None) /\
  fst (bind (run Mem.proxy
               [ActGetHit Mem.req (Mem.policy false true) "k" Mem.getter;
                ActClock (Mem.later + 5); ActRunTask 0;
                ActClock (Mem.later + 9)])
            (fun _ => GetHit (Some Mem.proxy) Mem.req (Mem.policy false true) "k"
                        Mem.getter) (Mem.warm Mem.later)) = Ok ("new", true, None).
Proof.
  unshelve refine
    (let H := stale_refresh_then_new Mem.proxy Mem.req (Mem.policy false true)
                "k" Mem.getter (Mem.warm Mem.later) _ _ _ _ _ _ _
                (Mem.later + 5) (Mem.later + 9) _ _ _ _ _ _ _ _ _ in _);
    [shelve|shelve|shelve|shelve|shelve|shelve|shelve| | | | | | | | | |].
  - discriminate.
  - reflexivity.
  - reflexivity.
  - reflexivity.
  - reflexivity.
  - reflexivity.
  - reflexivity.
  - reflexivity.
  - reflexivity.
  - split; [exact (proj1 H)|exact (f_equal fst (proj2 H))].
Defined.

(** A stale value and an origin that has lost the record. *)
Lemma stale_refresh_origin_error_mem :
  fst (GetHit (Some Mem.proxy) Mem.req (Mem.policy false true) "k" Mem.getter
         (Mem.orphan Mem.later)) = Ok ("old", true, None) /\
  fst (run Mem.proxy
         [ActGetHit Mem.req (Mem.policy false true) "k" Mem.getter; ActRunTask 0]
         (Mem.orphan Mem.later)) = Panic nil_assertion.
Proof.
  unshelve refine
    (let H := stale_refresh_origin_error Mem.proxy Mem.req (Mem.policy false true)
                "k" Mem.getter (Mem.orphan Mem.later) _ _ _ _ _ _
                _ _ _ _ _ _ in _);
    [shelve|shelve|shelve|shelve|shelve|shelve| | | | | | |].
  - discriminate.
  - reflexivity.
  - reflexivity.
  - reflexivity.
  - reflexivity.
  - reflexivity.
  - split; [exact (proj1 H)|exact (f_equal fst (proj2 H))].
Defined.

(** A volatile record: two milliseconds after the write-back the fast offset
    of one second has long elapsed, the normal one of ten minutes has not. *)
Lemma fast_requery_flag_shortens_mem :
  w_tasks
    (snd (bind (run Mem.proxy
                  [ActGetHit Mem.req (Mem.policy false true) "k" Mem.getter;
                   ActClock 2000; ActRunTask 0; ActClock 2000002000])
               (fun _ => GetHit (Some Mem.proxy) Mem.req (Mem.policy false true)
                           "k" Mem.getter)
               (Mem.world 1000 (Mem.mkRedis ∅ false) {[ "k" := ("v", true) ]}))) =
    [TaskRefresh (Mem.policy false true) "k" Mem.getter].
Proof.
  unshelve refine
    (let H := fast_requery_flag_shortens Mem.proxy Mem.req (Mem.policy false true)
                "k" Mem.getter
                (Mem.world 1000 (Mem.mkRedis ∅ false) {[ "k" := ("v", true) ]})
                _ _ _ _ _ _ _ 2000 2000002000 _ _ _ _ _ _ _ _ _ in _);
    [shelve|shelve|shelve|shelve|shelve|shelve|shelve| | | | | | | | | |].
  - discriminate.
  - reflexivity.
  - reflexivity.
  - reflexivity.
  - reflexivity.
  - reflexivity.
  - reflexivity.
  - discriminate.
  - vm_compute. split; [reflexivity|discriminate].
  - exact (f_equal (fun x => w_tasks (snd x)) H).
Defined.

(** The adaptor on the in-memory redis: a value with a flag and a payload
    comes back as it was written. *)
Lemma RedisCache_Set_then_Get_mem :
  RedisCache.Get Mem.sonic (RedisCache.NewRedisAdaptor (Some Mem.client))
    Mem.req "k"
    (Mem.mkRedis
       {[ "k" := (Mem.encode (mkStringView 1000 true false "v"), 86400) ]}
       false) =
    (Ok (mkStringView 1000 true false "v", true, None),
     Mem.mkRedis
       {[ "k" := (Mem.encode (mkStringView 1000 true false "v"), 86400) ]}
       false).
Proof.
  exact (proj2 (RedisCache_Set_then_Get Mem.sonic Mem.client Background Mem.req
                  "k" (mkStringView 1000 true false "v") 86400 60
                  (Mem.mkRedis ∅ false)
                  (Mem.mkRedis
                     {[ "k" := (Mem.encode (mkStringView 1000 true false "v"),
                                86400) ]} false)
                  (Mem.mkRedis
                     {[ "k" := (Mem.encode (mkStringView 1000 true false "v"),
                                86400) ]} false)
                  (Mem.encode (mkStringView 1000 true false "v")) "OK"
                  ltac:(discriminate) eq_refl eq_refl eq_refl eq_refl)).
Defined.

(** A stored key, removed: the next call goes to the origin. *)
Lemma Remove_then_GetHit_mem :
  fst (bind (Remove (Some Mem.proxy) Mem.req (Mem.policy false false) "k")
            (fun _ => GetHit (Some Mem.proxy) Mem.req (Mem.policy false false) "k"
                        Mem.getter) (Mem.warm 2000)) = Ok ("new", false, None).
Proof.
  unshelve refine
    (let H := Remove_then_GetHit Mem.sonic Mem.client Mem.req Mem.req
                (Mem.policy false false) (Mem.policy false false) "k" Mem.getter
                (Mem.warm 2000) _ _ _ _ _ _ _ _ _ _ _ _ in _);
    [shelve|shelve|shelve|shelve|shelve|shelve|shelve| | | | | |].
  - discriminate.
  - reflexivity.
  - reflexivity.
  - reflexivity.
  - reflexivity.
  - exact (f_equal fst H).
Defined.

(** Redis down, then an entry that is not what the codec writes: both errors
    reach the caller although the origin knows the key. *)
Lemma GetHit_store_failure_mem :
  fst (GetHit (Some Mem.proxy) Mem.req (Mem.policy false false) "k" Mem.getter
         (Mem.world 1000 (Mem.mkRedis ∅ true) {[ "k" := ("v", false) ]})) =
    Ok ("", false, Some Mem.refused) /\
  fst (GetHit (Some Mem.proxy) Mem.req (Mem.policy false false) "k" Mem.getter
         (Mem.world 1000 (Mem.mkRedis {[ "k" := ("{}", 60) ]} false)
            {[ "k" := ("v", false) ]})) =
    Ok ("", false, Some (errors_New "invalid character")).
Proof.
  split.
  - unshelve refine
      (let H := GetHit_store_failure Mem.sonic Mem.client Mem.req
                  (Mem.policy false false) "k" Mem.getter
                  (Mem.world 1000 (Mem.mkRedis ∅ true) {[ "k" := ("v", false) ]})
                  _ _ _ Mem.refused _ _ _ _ in _);
      [shelve|shelve|shelve| | | | |].
    + discriminate.
    + reflexivity.
    + reflexivity.
    + left. split; [reflexivity|discriminate].
    + exact (f_equal fst H).
  - unshelve refine
      (let H := GetHit_store_failure Mem.sonic Mem.client Mem.req
                  (Mem.policy false false) "k" Mem.getter
                  (Mem.world 1000 (Mem.mkRedis {[ "k" := ("{}", 60) ]} false)
                     {[ "k" := ("v", false) ]})
                  _ _ _ (errors_New "invalid character") _ _ _ _ in _);
      [shelve|shelve|shelve| | | | |].
    + discriminate.
    + reflexivity.
    + reflexivity.
    + right. split; reflexivity.
    + exact (f_equal fst H).
Defined.

(** A key redis does not hold: not found, no error, a value marked absent. *)
Lemma RedisCache_Get_consistent_mem :
  fst (RedisCache.Get Mem.sonic (RedisCache.NewRedisAdaptor (Some Mem.client))
         Mem.req "k" (Mem.mkRedis ∅ false)) = Ok (StringView_nil, false, None) /\
  IsNil StringView_nil = true.
Proof.
  split; [reflexivity|].
  exact (f_equal IsNil
           (proj1 (proj2 (RedisCache_Get_consistent Mem.sonic Mem.client Mem.req
                            "k" (Mem.mkRedis ∅ false) StringView_nil false None
                            eq_refl)) eq_refl eq_refl)).
Defined.

(** A value stale after ten minutes is stale after an hour, also under half
    the offsets. *)
Lemma IsExpire_monotone_mem :
  IsExpire Mem.old_value 300000000000 500000000 (1000 + 3600000000000) = true.
Proof.
  apply (IsExpire_monotone Mem.old_value defaultRefreshTime 1000000000
           300000000000 500000000 Mem.later (1000 + 3600000000000)).
  - discriminate.
  - discriminate.
  - discriminate.
  - reflexivity.
Defined.

(** A value written a second ago, with [NeedCacheRefresh]: served, and no
    goroutine. *)
Lemma GetHit_hit_fresh_mem :
  GetHit (Some Mem.proxy) Mem.req (Mem.policy false true) "k" Mem.getter
    (Mem.warm 1000001000) =
    (Ok ("old", true, None),
     mkWorld 1000001000 (w_store (Mem.warm 1000001000))
       (w_origin (Mem.warm 1000001000)) (Some []) []
       [mkEvent 1000001000 (CallCacheGet Mem.req "k")]).
Proof.
  apply (GetHit_hit_fresh Mem.proxy Mem.req (Mem.policy false true) "k"
           Mem.getter (Mem.warm 1000001000) Mem.old_value
           (w_store (Mem.warm 1000001000))).
  - discriminate.
  - reflexivity.
  - reflexivity.
  - reflexivity.
  - reflexivity.
Defined.
